(** * BTC & ETH market-health dashboard (app.py): model and verified properties

    The dashboard is one Streamlit script: a cached CSV load, a date-range
    slice of the loaded frame, four Plotly figures, one styled table and a
    CSV download.  The script is embedded below as a program in a small
    state-and-exception monad over the session state (memo cache, object
    store, rendered elements); the pandas and Plotly calls it makes are
    embedded as total functions on a row-oriented frame. *)

From Stdlib Require Import ZArith List String Bool Lia PeanoNat.
From Stdlib Require Import PrimFloat DecimalString.
From Stdlib Require Uint63.
Import ListNotations.

Set Warnings "-inexact-float,-abstract-large-number".
Local Open Scope Z_scope.

(** ** Calendar dates and timestamps *)

Module Calendar.

(** A [datetime.date] is kept as its proleptic Gregorian ordinal
    ([date.toordinal()]); a pandas [Timestamp] as nanoseconds since the
    Unix epoch. *)
Definition date := Z.
Definition Timestamp := Z.

Definition _is_leap (y : Z) : bool :=
  (y mod 4 =? 0) && (negb (y mod 100 =? 0) || (y mod 400 =? 0)).

Definition _days_before_year (y : Z) : Z :=
  let p := y - 1 in p * 365 + p / 4 - p / 100 + p / 400.

Definition _DAYS_BEFORE_MONTH (m : Z) : Z :=
  match m with
  | 1 => 0 | 2 => 31 | 3 => 59 | 4 => 90 | 5 => 120 | 6 => 151
  | 7 => 181 | 8 => 212 | 9 => 243 | 10 => 273 | 11 => 304 | _ => 334
  end.

Definition _days_before_month (y m : Z) : Z :=
  _DAYS_BEFORE_MONTH m + (if (2 <? m) && _is_leap y then 1 else 0).

Definition _ymd2ord (y m d : Z) : date :=
  _days_before_year y + _days_before_month y m + d.

Definition _DI400Y : Z := 146097.
Definition _DI100Y : Z := 36524.
Definition _DI4Y : Z := 1461.

Definition _DAYS_IN_MONTH (m : Z) : Z :=
  match m with
  | 2 => 28
  | 4 | 6 | 9 | 11 => 30
  | _ => 31
  end.

(** [datetime._ord2ymd]: the inverse of [_ymd2ord]. *)
Definition _ord2ymd (n : Z) : Z * Z * Z :=
  let n := n - 1 in
  let n400 := n / _DI400Y in
  let n := n mod _DI400Y in
  let year := n400 * 400 + 1 in
  let n100 := n / _DI100Y in
  let n := n mod _DI100Y in
  let n4 := n / _DI4Y in
  let n := n mod _DI4Y in
  let n1 := n / 365 in
  let n := n mod 365 in
  let year := year + n100 * 100 + n4 * 4 + n1 in
  if (n1 =? 4) || (n100 =? 4) then (year - 1, 12, 31)
  else
    let leapyear := (n1 =? 3) && (negb (n4 =? 24) || (n100 =? 3)) in
    let month := Z.shiftr (n + 50) 5 in
    let preceding :=
      _DAYS_BEFORE_MONTH month + (if (2 <? month) && leapyear then 1 else 0) in
    if n <? preceding
    then
      let month := month - 1 in
      let preceding :=
        preceding
        - (_DAYS_IN_MONTH month + (if (month =? 2) && leapyear then 1 else 0)) in
      (year, month, n - preceding + 1)
    else (year, month, n - preceding + 1).

Definition epoch_ordinal : Z := 719163.
Definition ns_per_day : Z := 86400 * 1000000000.

(** [Timestamp(d)]: the date at midnight. *)
Definition Timestamp_of_date (d : date) : Timestamp :=
  (d - epoch_ordinal) * ns_per_day.

(** [ts.date()]: the calendar day a timestamp falls on. *)
Definition Timestamp_date (t : Timestamp) : date :=
  t / ns_per_day + epoch_ordinal.

(** [pd.to_datetime('YYYY-MM-DD')]. *)
Definition to_datetime (y m d : Z) : Timestamp :=
  Timestamp_of_date (_ymd2ord y m d).

End Calendar.
Import Calendar.

(** ** Exceptions *)

Inductive exn_class := FileNotFoundError | KeyError | ValueError | OtherException.

Record exn := mkExn { cls : exn_class; text : string }.

Inductive result (A : Type) :=
| Ok (a : A)
| Err (e : exn).
Arguments Ok {A} a.
Arguments Err {A} e.

Definition rbind {A B} (r : result A) (k : A -> result B) : result B :=
  match r with
  | Ok a => k a
  | Err e => Err e
  end.

Declare Scope result_scope.
Delimit Scope result_scope with result.
Notation "'let?' x ':=' r 'in' k" := (rbind r (fun x => k))
  (at level 10, x name, r at level 100, k at level 200) : result_scope.

(** ** Data frames *)

(** One record of the set: the index key and the cells of the data columns,
    in column order. *)
Record Row := mkRow { key : Timestamp; cells : list float }.

Record DataFrame := mkDF { columns : list string; rows : list Row }.

Definition index (df : DataFrame) : list Timestamp := map key (rows df).

(** [Index.min()] and [Index.max()]; [None] is [NaT], the value on an empty
    index. *)
Definition index_min (idx : list Timestamp) : option Timestamp :=
  match idx with
  | [] => None
  | t :: ts => Some (fold_left Z.min ts t)
  end.

Definition index_max (idx : list Timestamp) : option Timestamp :=
  match idx with
  | [] => None
  | t :: ts => Some (fold_left Z.max ts t)
  end.

(** [t.date()] on a possibly-[NaT] timestamp: [NaT] has no date. *)
Definition NaT_date (t : option Timestamp) : result date :=
  match t with
  | Some t => Ok (Timestamp_date t)
  | None => Err (mkExn ValueError "NaTType does not support date")
  end.

(** Comparisons against a possibly-[NaT] timestamp: any comparison with
    [NaT] is [False]. *)
Definition le_NaT (a : Timestamp) (b : option Timestamp) : bool :=
  match b with Some b => a <=? b | None => false end.

Definition ge_NaT (a : Timestamp) (b : option Timestamp) : bool :=
  match b with Some b => b <=? a | None => false end.

Fixpoint find_col (c : string) (cols : list string) : option nat :=
  match cols with
  | [] => None
  | c' :: cs => if String.eqb c c' then Some O else option_map S (find_col c cs)
  end.

(** Python's [repr] of a string without quotes in it, and of a list of
    such strings. *)
Definition py_repr (s : string) : string :=
  String.append "'" (String.append s "'").

Definition py_repr_list (l : list string) : string :=
  String.append "[" (String.append (String.concat ", " (map py_repr l)) "]").

(** The text of a [KeyError] is the [repr] of its argument: a message that
    has single quotes in it is printed between double quotes. *)
Definition double_quote : string := String (Ascii.ascii_of_nat 34) EmptyString.

Definition py_repr_message (msg : string) : string :=
  String.append double_quote (String.append msg double_quote).

(** [df[c]]: one column as a list of values, [KeyError(c)] when the frame
    has no such column.  A row shorter than the header reads as NaN, as
    [read_csv] fills it. *)
Definition getitem (df : DataFrame) (c : string) : result (list float) :=
  match find_col c (columns df) with
  | Some k => Ok (map (fun r => nth k (cells r) nan) (rows df))
  | None => Err (mkExn KeyError (py_repr c))
  end.

(** The labels of [cs] that are no column of the frame, in the order of
    [cs]. *)
Definition missing_labels (cs cols : list string) : list string :=
  filter (fun c => negb (existsb (String.eqb c) cols)) cs.

(** The message of [_raise_if_missing]: every missing label is listed; when
    all labels are missing the whole key is printed instead (its [Index] on
    one line). *)
Definition not_in_index (cs missing : list string) : string :=
  if Nat.eqb (List.length missing) (List.length cs)
  then String.append "None of [Index("
         (String.append (py_repr_list cs) ", dtype='object')] are in the [columns]")
  else String.append (py_repr_list missing) " not in index".

(** [df[[c1, ..., cn]]]: the frame restricted to the listed columns; one
    [KeyError] for all the labels that are no column. *)
Definition getitem_list (df : DataFrame) (cs : list string) : result DataFrame :=
  match missing_labels cs (columns df) with
  | [] =>
      Ok (mkDF cs
               (map (fun r =>
                       mkRow (key r)
                             (map (fun c => match find_col c (columns df) with
                                            | Some k => nth k (cells r) nan
                                            | None => nan
                                            end) cs))
                    (rows df)))
  | missing => Err (mkExn KeyError (py_repr_message (not_in_index cs missing)))
  end.

(** [df.tail(n)]: the last [n] rows. *)
Definition tail (n : nat) (df : DataFrame) : DataFrame :=
  mkDF (columns df) (skipn (List.length (rows df) - n) (rows df)).

(** [df.copy()]. *)
Definition copy (df : DataFrame) : DataFrame := mkDF (columns df) (rows df).

(** *** Rounding

    [DataFrame.round(2)] is numpy's [around]: multiply by [10**2], [rint],
    divide by [10**2].  [rint] rounds to the nearest integer, ties to even;
    below [2**52] it is the add-and-subtract of [2**52] in the default
    rounding mode, from [2**52] on every double is an integer already. *)
Local Open Scope float_scope.

Definition two52 : float := 4503599627370496.

Definition rint_abs (x : float) : float :=
  if PrimFloat.ltb x two52 then (x + two52) - two52 else x.

Definition rint (x : float) : float :=
  if PrimFloat.ltb x 0 then - rint_abs (abs x)
  else if PrimFloat.eqb x 0 then x
  else rint_abs x.

Definition around (decimals_pow : float) (x : float) : float :=
  rint (x * decimals_pow) / decimals_pow.

Definition round2 (x : float) : float := around 100 x.

Local Close Scope float_scope.

Definition round (df : DataFrame) : DataFrame :=
  mkDF (columns df) (map (fun r => mkRow (key r) (map round2 (cells r))) (rows df)).

(** *** Label slicing on the index: [df.loc[start:end]] *)

Fixpoint is_monotonic_increasing (idx : list Timestamp) : bool :=
  match idx with
  | a :: (b :: _) as t => (a <=? b) && is_monotonic_increasing t
  | _ => true
  end.

Fixpoint is_monotonic_decreasing (idx : list Timestamp) : bool :=
  match idx with
  | a :: (b :: _) as t => (b <=? a) && is_monotonic_decreasing t
  | _ => true
  end.

Fixpoint is_unique (idx : list Timestamp) : bool :=
  match idx with
  | [] => true
  | a :: t => negb (existsb (Z.eqb a) t) && is_unique t
  end.

Inductive Side := Left | Right.

Definition flip (s : Side) : Side :=
  match s with Left => Right | Right => Left end.

(** [Index.searchsorted] on an ascending index: the insertion point that
    keeps it sorted, before ([Left]) or after ([Right]) equal keys. *)
Fixpoint searchsorted (idx : list Timestamp) (v : Timestamp) (side : Side) : nat :=
  match idx with
  | [] => O
  | a :: t =>
      if (match side with Left => a <? v | Right => a <=? v end)
      then S (searchsorted t v side)
      else O
  end.

(** [_searchsorted_monotonic]: a descending index is searched reversed. *)
Definition _searchsorted_monotonic (idx : list Timestamp) (v : Timestamp) (side : Side)
  : option nat :=
  if is_monotonic_increasing idx then Some (searchsorted idx v side)
  else if is_monotonic_decreasing idx
       then Some (List.length idx - searchsorted (rev idx) v (flip side))%nat
       else None.

(** Positions at which a label occurs, counted from [i]. *)
Fixpoint positions (idx : list Timestamp) (v : Timestamp) (i : nat) : list nat :=
  match idx with
  | [] => []
  | a :: t => if a =? v then i :: positions t v (S i) else positions t v (S i)
  end.

Fixpoint consecutive (ps : list nat) : bool :=
  match ps with
  | p :: (q :: _) as t => Nat.eqb (S p) q && consecutive t
  | _ => true
  end.

(** [str(n)] and [f"{n:02d}"] for a natural number. *)
Definition decimal (n : Z) : string :=
  NilZero.string_of_uint (N.to_uint (Z.to_N n)).

Definition decimal02 (n : Z) : string :=
  if n <? 10 then String.append "0" (decimal n) else decimal n.

(** [repr(d)] of a [datetime.date]. *)
Definition date_repr (d : date) : string :=
  let '(year, month, day) := _ord2ymd d in
  String.append "datetime.date("
    (String.append (decimal year)
       (String.append ", "
          (String.append (decimal month)
             (String.append ", " (String.append (decimal day) ")"))))).

(** [repr(Timestamp(d))]: the date at midnight. *)
Definition midnight_repr (d : date) : string :=
  let '(year, month, day) := _ord2ymd d in
  String.append "Timestamp('"
    (String.append (decimal year)
       (String.append "-"
          (String.append (decimal02 month)
             (String.append "-"
                (String.append (decimal02 day) " 00:00:00')"))))).

Definition side_name (s : Side) : string :=
  match s with Left => "left" | Right => "right" end.

(** [Index.get_slice_bound] on a [DatetimeIndex]: the bound, a
    [datetime.date], is cast to the [Timestamp] at its midnight.  A label
    that occurs gives its first position ([Left]) or one past its last
    ([Right]), provided its occurrences form one run; otherwise the
    [KeyError] names the bound as it was passed.  A label that does not
    occur is located by [searchsorted] when the index is monotonic;
    otherwise the [KeyError] of the failed lookup, which carries the cast
    label, is raised. *)
Definition get_slice_bound (idx : list Timestamp) (original_label : date) (side : Side)
  : result nat :=
  let label := Timestamp_of_date original_label in
  match positions idx label O with
  | [] =>
      match _searchsorted_monotonic idx label side with
      | Some n => Ok n
      | None => Err (mkExn KeyError (midnight_repr original_label))
      end
  | p :: ps =>
      if consecutive (p :: ps)
      then Ok (match side with Left => p | Right => S (last ps p) end)
      else Err (mkExn KeyError
                      (py_repr
                         (String.append "Cannot get "
                            (String.append (side_name side)
                               (String.append " slice bound for non-unique label: "
                                  (date_repr original_label))))))
  end.

(** Python's [rows[i:j]]. *)
Definition slice {A} (i j : nat) (l : list A) : list A :=
  firstn (j - i) (skipn i l).

(** [df.loc[start:end]] with [datetime.date] bounds: each bound is located
    on the index, and the rows between the two positions are taken. *)
Definition loc_slice (df : DataFrame) (start_date end_date : date) : result DataFrame :=
  (let? i := get_slice_bound (index df) start_date Left in
   let? j := get_slice_bound (index df) end_date Right in
   Ok (mkDF (columns df) (slice i j (rows df))))%result.

(** Lines 62-66: the range filter on the widget's return value, a tuple of
    zero, one or two dates. *)
Definition filter_df (df : DataFrame) (date_range : list date) : result DataFrame :=
  match date_range with
  | [start_date; end_date] => loc_slice df start_date end_date
  | _ => Ok (copy df)
  end.

(** ** Plotly figures *)

Local Open Scope string_scope.

Record Line := mkLine { color : string; width : option Z; dash : option string }.

Record Scatter := mkScatter
  { x : list Timestamp; y : list float; name : string; line : Line;
    secondary_y : bool }.

(** A coordinate of a shape: a date string, a (possibly [NaT]) timestamp or a
    number. *)
Inductive Coord :=
| CStr (s : string)
| CTime (t : option Timestamp)
| CNum (z : Z)
| CFull.

Record Shape := mkShape
  { shape_type : string; x0 : Coord; x1 : Coord; y0 : Coord; y1 : Coord;
    fillcolor : string; opacity : float; shape_line : Line }.

Record Annotation := mkAnnotation
  { annotation_text : string; annotation_position : string;
    annotation_font_size : Z; annotation_font_color : string }.

Record Layout := mkLayout
  { title : string; xaxis_title : string; yaxis_title : string;
    yaxis2_title : string; yaxis_type : string; yaxis_range : option (Z * Z);
    hovermode : string; height : Z }.

Record Figure := mkFigure
  { data : list Scatter; shapes : list Shape; annotations : list Annotation;
    layout : Layout }.

(** [fig.add_vrect(x0='2026-02-01', x1='2026-02-16', ...)]: one rectangle
    over the full plot height and its annotation. *)
Definition correction_band : Shape :=
  mkShape "rect" (CStr "2026-02-01") (CStr "2026-02-16") CFull CFull
          "red" 0.12%float (mkLine "" (Some 0) None).

Definition correction_annotation : Annotation :=
  mkAnnotation "Early 2026 Correction" "top left" 14 "red".

Definition band_start : Timestamp := to_datetime 2026 2 1.
Definition band_end : Timestamp := to_datetime 2026 2 16.

(** Line 112: the test that guards [add_vrect]. *)
Definition correction_in_range (filtered_df : DataFrame) : bool :=
  le_NaT band_start (index_max (index filtered_df))
  && ge_NaT band_end (index_min (index filtered_df)).

Local Open Scope result_scope.

(** Tab 1 (lines 85-130): prices and 30-day moving averages on two axes. *)
Definition fig1 (filtered_df : DataFrame) : result Figure :=
  let? btc := getitem filtered_df "btc_price_usd" in
  let? btc_ma := getitem filtered_df "btc_price_30d_ma" in
  let? eth := getitem filtered_df "eth_price_usd" in
  let? eth_ma := getitem filtered_df "eth_price_30d_ma" in
  let idx := index filtered_df in
  let traces :=
    [ mkScatter idx btc "BTC Price" (mkLine "orange" None None) false;
      mkScatter idx btc_ma "BTC 30d MA" (mkLine "darkorange" (Some 3) None) false;
      mkScatter idx eth "ETH Price" (mkLine "blue" None None) true;
      mkScatter idx eth_ma "ETH 30d MA" (mkLine "navy" (Some 3) None) true ] in
  let band := correction_in_range filtered_df in
  Ok (mkFigure traces
        (if band then [correction_band] else [])
        (if band then [correction_annotation] else [])
        (mkLayout "BTC & ETH Prices with 30-Day Moving Averages" "Date"
                  "BTC Price (USD)" "ETH Price (USD)" "linear" None
                  "x unified" 600)).

(** Tab 2 (lines 140-157): 30-day annualized volatility. *)
Definition fig2 (filtered_df : DataFrame) : result Figure :=
  let? btc := getitem filtered_df "btc_vol_30d" in
  let? eth := getitem filtered_df "eth_vol_30d" in
  let idx := index filtered_df in
  Ok (mkFigure
        [ mkScatter idx btc "BTC 30d Vol (Ann.)" (mkLine "orange" None None) false;
          mkScatter idx eth "ETH 30d Vol (Ann.)" (mkLine "blue" None None) false ]
        [] []
        (mkLayout "30-Day Annualized Volatility" "Date" "Volatility (%)" ""
                  "linear" None "x unified" 550)).

(** [px.line(df, x=df.index, y=c)]: a column the frame lacks is a
    [ValueError] that lists the columns there are.  Over a frame with rows
    the figure has one solid line trace in the first colour of the palette,
    over the whole frame.  An empty index is read as an empty list of column
    names (wide form): the figure then has no trace, and its x axis is
    titled [value]. *)
Definition px_line (df : DataFrame) (c : string) (ttl : string) (ylabel : string)
  : result Figure :=
  match getitem df c with
  | Ok ys =>
      match rows df with
      | [] =>
          Ok (mkFigure [] [] []
                       (mkLayout ttl "value" ylabel "" "linear" None "closest" 0))
      | _ :: _ =>
          Ok (mkFigure [ mkScatter (index df) ys ""
                                   (mkLine "#636efa" None (Some "solid")) false ]
                       [] []
                       (mkLayout ttl "Date" ylabel "" "linear" None "closest" 0))
      end
  | Err _ =>
      Err (mkExn ValueError
                 ("Value of 'y' is not the name of a column in 'data_frame'. Expected one of "
                  ++ py_repr_list (columns df) ++ " but received: " ++ c))
  end.

(** [fig.update_traces(line=dict(...))]: the keys given are set on the line
    of every trace, the other keys of the line stay. *)
Definition merge_line (given old : Line) : Line :=
  mkLine (if String.eqb (color given) "" then color old else color given)
         (match width given with Some w => Some w | None => width old end)
         (match dash given with Some d => Some d | None => dash old end).

Definition update_traces (l : Line) (f : Figure) : Figure :=
  mkFigure (map (fun t => mkScatter (x t) (y t) (name t) (merge_line l (line t))
                                    (secondary_y t))
                (data f))
           (shapes f) (annotations f) (layout f).

(** Tab 3 (lines 167-186): 90-day rolling correlation with a zero line drawn
    from the first to the last key of the slice. *)
Definition fig3 (filtered_df : DataFrame) : result Figure :=
  let? f := px_line filtered_df "btc_eth_price_corr_90d"
                    "90-Day Rolling Correlation" "Correlation" in
  let f := update_traces (mkLine "purple" (Some 3) None) f in
  let zero_line :=
    mkShape "line" (CTime (index_min (index filtered_df)))
            (CTime (index_max (index filtered_df))) (CNum 0) (CNum 0)
            "" 1%float (mkLine "gray" None (Some "dash")) in
  let lay := layout f in
  Ok (mkFigure (data f) [zero_line] (annotations f)
        (mkLayout (title lay) (xaxis_title lay) (yaxis_title lay) (yaxis2_title lay)
                  (yaxis_type lay) (Some (-1, 1)) (hovermode lay) 550)).

(** Tab 4 (lines 196-214): 7-day average volume on a log axis. *)
Definition fig4 (filtered_df : DataFrame) : result Figure :=
  let? btc := getitem filtered_df "btc_volume_7d_ma" in
  let? eth := getitem filtered_df "eth_volume_7d_ma" in
  let idx := index filtered_df in
  Ok (mkFigure
        [ mkScatter idx btc "BTC 7d Avg Volume" (mkLine "orange" None None) false;
          mkScatter idx eth "ETH 7d Avg Volume" (mkLine "blue" None None) false ]
        [] []
        (mkLayout "7-Day Average Daily Volume (Log Scale)" "Date"
                  "Volume (log scale)" "" "log" None "x unified" 550)).

(** ** Table and export *)

Definition table_columns : list string :=
  [ "btc_price_usd"; "eth_price_usd";
    "btc_price_30d_ma"; "eth_price_30d_ma";
    "btc_vol_30d"; "eth_vol_30d";
    "btc_eth_price_corr_90d";
    "btc_volume_7d_ma"; "eth_volume_7d_ma" ]%string.

(** The argument of [Styler.format]: a display format per column. *)
Definition table_formats : list (string * string) :=
  [ ("btc_price_usd", "${:,.0f}");
    ("eth_price_usd", "${:,.0f}");
    ("btc_price_30d_ma", "${:,.0f}");
    ("eth_price_30d_ma", "${:,.0f}");
    ("btc_vol_30d", "{:.1f}%");
    ("eth_vol_30d", "{:.1f}%");
    ("btc_eth_price_corr_90d", "{:.3f}") ]%string.

(** [df.style.format(...)]: the frame together with its display formats. *)
Record Styler := mkStyler { styled : DataFrame; formats : list (string * string) }.

(** Lines 224-230. *)
Definition recent (filtered_df : DataFrame) : result DataFrame :=
  let? sel := getitem_list (tail 15 filtered_df) table_columns in
  Ok (round sel).

(** Lines 232-240. *)
Definition recent_table (filtered_df : DataFrame) : result Styler :=
  let? r := recent filtered_df in
  Ok (mkStyler r table_formats).

(** [df.to_csv()]: a header line (the index name, then the column names) and
    one record per row; a record holds the key and one field per column, the
    cell that the line spells out (NaN where the row has none). *)
Record CSV := mkCSV { header : list string; records : list (Timestamp * list float) }.

Definition fields (df : DataFrame) (r : Row) : list float :=
  map (fun k => nth k (cells r) nan) (seq 0 (List.length (columns df))).

Definition to_csv (df : DataFrame) : CSV :=
  mkCSV ("date" :: columns df) (map (fun r => (key r, fields df r)) (rows df)).

Local Close Scope result_scope.
Local Close Scope string_scope.

(** ** The Streamlit session *)

Local Open Scope string_scope.

Inductive Element :=
| Title (s : string)
| Markdown (s : string)
| Caption (s : string)
| Subheader (s : string)
| SidebarHeader (s : string)
| DateInput (label : string) (value : option date * option date)
            (min_value max_value : option date)
| Tabs (labels : list string)
| ErrorBox (s : string)
| PlotlyChart (f : Figure)
| DataFrameView (s : Styler)
| DownloadButton (label : string) (payload : CSV) (file_name : string) (mime : string).

Definition loc := nat.

(** What a run of the script can see and change: the outcome that reading
    the data file has (the [try] body of [load_data], lines 23-29), the memo
    of [st.cache_data], the number of reads of the file so far, the frames
    alive in the run, and the elements rendered so far. *)
Record World := mkWorld
  { csv_file : result DataFrame;
    cache : option DataFrame;
    reads : nat;
    heap : list DataFrame;
    ui : list Element }.

Inductive Res (A : Type) :=
| Val (a : A)
| Stopped
| Raised (e : exn).
Arguments Val {A} a.
Arguments Stopped {A}.
Arguments Raised {A} e.

Definition M (A : Type) : Type := World -> Res A * World.

Definition ret {A} (a : A) : M A := fun w => (Val a, w).

Definition bind {A B} (m : M A) (k : A -> M B) : M B :=
  fun w =>
    match m w with
    | (Val a, w') => k a w'
    | (Stopped, w') => (Stopped, w')
    | (Raised e, w') => (Raised e, w')
    end.

Declare Scope st_scope.
Delimit Scope st_scope with st.
Notation "x <- m ;; k" := (bind m (fun x => k))
  (at level 61, m at next level, right associativity) : st_scope.
Notation "m ;; k" := (bind m (fun _ => k))
  (at level 61, right associativity) : st_scope.
Local Open Scope st_scope.

Definition raise {A} (e : exn) : M A := fun w => (Raised e, w).

Definition lift {A} (r : result A) : M A :=
  match r with
  | Ok a => ret a
  | Err e => raise e
  end.

(** [try: body except ... as e: handler]. *)
Definition try_except {A} (body : M A) (handler : exn -> M A) : M A :=
  fun w =>
    match body w with
    | (Raised e, w') => handler e w'
    | other => other
    end.

Definition st_emit (e : Element) : M unit :=
  fun w => (Val tt, mkWorld (csv_file w) (cache w) (reads w) (heap w) (ui w ++ [e])%list).

Definition st_error (msg : string) : M unit := st_emit (ErrorBox msg).

(** [st.stop()]: the run ends here. *)
Definition st_stop {A} : M A := fun w => (Stopped, w).

(** A new frame object. *)
Definition new (v : DataFrame) : M loc :=
  fun w => (Val (List.length (heap w)),
            mkWorld (csv_file w) (cache w) (reads w) (heap w ++ [v])%list (ui w)).

Definition deref (l : loc) : M DataFrame :=
  fun w =>
    match nth_error (heap w) l with
    | Some v => (Val v, w)
    | None => (Raised (mkExn OtherException "dangling frame"), w)
    end.

(** Lines 23-29: one read of the file. *)
Definition read_csv : M DataFrame :=
  fun w =>
    let w' := mkWorld (csv_file w) (cache w) (S (reads w)) (heap w) (ui w) in
    match csv_file w with
    | Ok df => (Val df, w')
    | Err e => (Raised e, w')
    end.

(** [@st.cache_data]: a memoised value is handed out as a fresh copy; on a
    miss the function runs, and only a returned value is stored. *)
Definition cache_data (f : M DataFrame) : M loc :=
  fun w =>
    match cache w with
    | Some v => new v w
    | None =>
        match f w with
        | (Val v, w') =>
            new v (mkWorld (csv_file w') (Some v) (reads w') (heap w') (ui w'))
        | (Stopped, w') => (Stopped, w')
        | (Raised e, w') => (Raised e, w')
        end
    end.

Definition missing_file_message : string :=
  "Data file not found. Please make sure 'enriched_btc_eth_metrics_2024_current.csv' exists in the same folder.".

(** Lines 20-35. *)
Definition load_data : M loc :=
  cache_data
    (try_except read_csv
       (fun e =>
          match cls e with
          | FileNotFoundError => st_error missing_file_message ;; st_stop
          | _ => st_error ("Error loading data: " ++ text e) ;; st_stop
          end)).

(** Lines 62-66 on the store: either branch binds [filtered_df] to a new
    frame. *)
Definition filter_step (df : loc) (date_range : list date) : M loc :=
  v <- deref df ;;
  r <- lift (filter_df v date_range) ;;
  new r.

Definition tab1 (filtered_df : loc) : M unit :=
  st_emit (Subheader "BTC & ETH Prices with 30-Day Moving Averages") ;;
  v <- deref filtered_df ;;
  f <- lift (fig1 v) ;;
  st_emit (PlotlyChart f).

Definition tab2 (filtered_df : loc) : M unit :=
  st_emit (Subheader "30-Day Annualized Volatility – BTC vs ETH") ;;
  v <- deref filtered_df ;;
  f <- lift (fig2 v) ;;
  st_emit (PlotlyChart f).

Definition tab3 (filtered_df : loc) : M unit :=
  st_emit (Subheader "90-Day Rolling Correlation: BTC vs ETH Prices") ;;
  v <- deref filtered_df ;;
  f <- lift (fig3 v) ;;
  st_emit (PlotlyChart f).

Definition tab4 (filtered_df : loc) : M unit :=
  st_emit (Subheader "7-Day Average Daily Volume (Log Scale)") ;;
  v <- deref filtered_df ;;
  f <- lift (fig4 v) ;;
  st_emit (PlotlyChart f).

Definition tab5 (filtered_df : loc) : M unit :=
  st_emit (Subheader "Recent Data Snapshot (Last 15 Days)") ;;
  v <- deref filtered_df ;;
  t <- lift (recent_table v) ;;
  st_emit (DataFrameView t) ;;
  st_emit (DownloadButton "Download Full Dataset (CSV)" (to_csv v)
                          "btc_eth_metrics_2024_2026.csv" "text/csv").

(** The script, top to bottom, for the tuple [date_range] that the date
    picker returns in this run. *)
Definition script (date_range : list date) : M unit :=
  df <- load_data ;;
  st_emit (Title "Bitcoin & Ethereum Market Health Dashboard") ;;
  st_emit (Markdown "
Interactive analysis of BTC and ETH price trends, moving averages, volatility, correlation, and volume  
**Time period:** 2024 – February 2026  
**Focus:** 2025 bull phase vs. early 2026 correction signals
") ;;
  st_emit (SidebarHeader "Dashboard Controls") ;;
  v <- deref df ;;
  value_lo <- lift (NaT_date (index_min (index v))) ;;
  value_hi <- lift (NaT_date (index_max (index v))) ;;
  min_value <- lift (NaT_date (index_min (index v))) ;;
  max_value <- lift (NaT_date (index_max (index v))) ;;
  st_emit (DateInput "Select date range" (Some value_lo, Some value_hi)
                     (Some min_value) (Some max_value)) ;;
  filtered_df <- filter_step df date_range ;;
  st_emit (Tabs [ "Price & Moving Averages"; "Volatility"; "BTC-ETH Correlation";
                  "Trading Volume"; "Data Table & Download" ]) ;;
  tab1 filtered_df ;;
  tab2 filtered_df ;;
  tab3 filtered_df ;;
  tab4 filtered_df ;;
  tab5 filtered_df ;;
  st_emit (Markdown "---") ;;
  st_emit (Caption "Built by Aklilu Abera| Data source: Binance (via ccxt), processed in Jupyter").

(** A rerun executes the script again on a cleared page; of the previous
    run only the memo survives. *)
Definition rerun (w : World) (date_range : list date) : World :=
  snd (script date_range (mkWorld (csv_file w) (cache w) (reads w) [] [])).

(** A session: one run per interaction with the date picker. *)
Definition session (w : World) (interactions : list (list date)) : World :=
  fold_left rerun interactions w.

Local Close Scope st_scope.
Local Close Scope string_scope.

(** ** Vocabulary of the properties *)

(** The record's key lies between the two bounds, both included. *)
Definition within (lo hi : Timestamp) (r : Row) : bool :=
  (lo <=? key r) && (key r <=? hi).

(** Every key is a midnight: the index holds calendar dates. *)
Definition is_normalized (idx : list Timestamp) : bool :=
  forallb (fun t => t mod ns_per_day =? 0) idx.

(** The frame has the nine metric columns that the tabs read. *)
Definition has_columns (df : DataFrame) : bool :=
  forallb (fun c => existsb (String.eqb c) (columns df)) table_columns.

(** The data-model invariant of a loaded record set: keys ascending and
    unique, the nine metric columns present. *)
Definition valid_record_set (df : DataFrame) : bool :=
  is_monotonic_increasing (index df) && is_unique (index df) && has_columns df.

(** First and last day of the highlighted interval. *)
Definition band_first_day : date := _ymd2ord 2026 2 1.
Definition band_last_day : date := _ymd2ord 2026 2 16.

(** The selected interval [[start_date, end_date]] shares a day with the
    highlighted interval. *)
Definition ranges_overlap (start_date end_date : date) : Prop :=
  exists d : date,
    start_date <= d <= end_date /\ band_first_day <= d <= band_last_day.

(** The figure carries the highlighted band and its annotation. *)
Definition band_drawn (f : Figure) : Prop :=
  In correction_band (shapes f) /\ In correction_annotation (annotations f).

(** The span from the earliest to the latest key of a slice meets the
    highlighted interval; an empty slice has no span. *)
Definition span_overlaps (filtered_df : DataFrame) : Prop :=
  exists lo hi,
    index_min (index filtered_df) = Some lo /\
    index_max (index filtered_df) = Some hi /\
    band_start <= hi /\ lo <= band_end.

(** The date picker offers the range: inside the span of the data, start not
    after end. *)
Definition picker_allows (df : DataFrame) (start_date end_date : date) : Prop :=
  exists lo hi,
    index_min (index df) = Some lo /\ index_max (index df) = Some hi /\
    Timestamp_date lo <= start_date /\ start_date <= end_date /\
    end_date <= Timestamp_date hi.

(** Every trace of the figure is empty. *)
Definition empty_traces (f : Figure) : Prop :=
  Forall (fun t => x t = [] /\ y t = []) (data f).

(** Every trace spans the whole slice: its abscissae are the index, and it
    has one ordinate per row. *)
Definition spans_slice (df : DataFrame) (g : Figure) : Prop :=
  Forall (fun t => x t = index df /\ List.length (y t) = List.length (rows df)) (data g).

(** The value a row holds in a named column of its frame. *)
Definition cell (df : DataFrame) (r : Row) (c : string) : float :=
  match find_col c (columns df) with
  | Some k => nth k (cells r) nan
  | None => nan
  end.

(** A row of the table view: the nine metric cells of a record, rounded. *)
Definition table_row (df : DataFrame) (r : Row) : Row :=
  mkRow (key r) (map (fun c => round2 (cell df r c)) table_columns).

(** The world after rendering further elements. *)
Definition emits (w : World) (es : list Element) : World :=
  mkWorld (csv_file w) (cache w) (reads w) (heap w) (ui w ++ es).

(** The world after creating further frames. *)
Definition allocates (w : World) (vs : list DataFrame) : World :=
  mkWorld (csv_file w) (cache w) (reads w) (heap w ++ vs) (ui w).

(** [w'] differs from [w] by new frames and rendered elements only: the
    data file, the memo, the read count and every frame of [w] are as they
    were. *)
Definition extends (w w' : World) : Prop :=
  csv_file w' = csv_file w /\ cache w' = cache w /\ reads w' = reads w /\
  exists vs, heap w' = heap w ++ vs.

(** A computation that only creates frames and renders elements. *)
Definition read_only {A} (m : M A) : Prop :=
  forall w, extends w (snd (m w)).

(** The record set [df0] is what the session serves: it is memoised, or it
    is what the data file loads to and nothing is memoised yet. *)
Definition serves (w : World) (df0 : DataFrame) : Prop :=
  cache w = Some df0 \/ (cache w = None /\ csv_file w = Ok df0).

(** The page of a completed run over the record set [df] and its slice
    [filtered_df], top to bottom. *)
Definition page (df filtered_df : DataFrame) (g1 g2 g3 g4 : Figure) (t : Styler)
  : list Element :=
  [ Title "Bitcoin & Ethereum Market Health Dashboard";
    Markdown "
Interactive analysis of BTC and ETH price trends, moving averages, volatility, correlation, and volume  
**Time period:** 2024 – February 2026  
**Focus:** 2025 bull phase vs. early 2026 correction signals
";
    SidebarHeader "Dashboard Controls";
    DateInput "Select date range"
              (option_map Timestamp_date (index_min (index df)),
               option_map Timestamp_date (index_max (index df)))
              (option_map Timestamp_date (index_min (index df)))
              (option_map Timestamp_date (index_max (index df)));
    Tabs [ "Price & Moving Averages"; "Volatility"; "BTC-ETH Correlation";
           "Trading Volume"; "Data Table & Download" ]%string;
    Subheader "BTC & ETH Prices with 30-Day Moving Averages";
    PlotlyChart g1;
    Subheader "30-Day Annualized Volatility – BTC vs ETH";
    PlotlyChart g2;
    Subheader "90-Day Rolling Correlation: BTC vs ETH Prices";
    PlotlyChart g3;
    Subheader "7-Day Average Daily Volume (Log Scale)";
    PlotlyChart g4;
    Subheader "Recent Data Snapshot (Last 15 Days)";
    DataFrameView t;
    DownloadButton "Download Full Dataset (CSV)" (to_csv filtered_df)
                   "btc_eth_metrics_2024_2026.csv" "text/csv";
    Markdown "---";
    Caption "Built by Aklilu Abera| Data source: Binance (via ccxt), processed in Jupyter" ].

(** The page down to the date picker. *)
Definition controls_page (df : DataFrame) : list Element :=
  [ Title "Bitcoin & Ethereum Market Health Dashboard";
    Markdown "
Interactive analysis of BTC and ETH price trends, moving averages, volatility, correlation, and volume  
**Time period:** 2024 – February 2026  
**Focus:** 2025 bull phase vs. early 2026 correction signals
";
    SidebarHeader "Dashboard Controls";
    DateInput "Select date range"
              (option_map Timestamp_date (index_min (index df)),
               option_map Timestamp_date (index_max (index df)))
              (option_map Timestamp_date (index_min (index df)))
              (option_map Timestamp_date (index_max (index df))) ].

Definition tabs_bar : Element :=
  Tabs [ "Price & Moving Averages"; "Volatility"; "BTC-ETH Correlation";
         "Trading Volume"; "Data Table & Download" ]%string.

(** The element is the table view or the download button. *)
Definition is_table_or_download (el : Element) : bool :=
  match el with
  | DataFrameView _ | DownloadButton _ _ _ _ => true
  | _ => false
  end.

Definition is_chart (el : Element) : bool :=
  match el with
  | PlotlyChart _ => true
  | _ => false
  end.

Definition is_error_box (el : Element) : bool :=
  match el with
  | ErrorBox _ => true
  | _ => false
  end.

(** The same world over another state of the data file. *)
Definition with_file (w : World) (file : result DataFrame) : World :=
  mkWorld file (cache w) (reads w) (heap w) (ui w).

(** A computation that does not look at the data file: over any other state
    of the file it has the same outcome and leaves the same world. *)
Definition file_blind {A} (m : M A) : Prop :=
  forall w file, m (with_file w file) = (fst (m w), with_file (snd (m w)) file).

(** The values of a named column over the rows of a frame. *)
Definition column_values (df : DataFrame) (c : string) : list float :=
  map (fun r => cell df r c) (rows df).

(** The message that a failed load shows. *)
Definition load_error_message (ex : exn) : string :=
  match cls ex with
  | FileNotFoundError => missing_file_message
  | _ => String.append "Error loading data: " (text ex)
  end.

(** The double nearest to an integer, and to an integer number of
    thousandths and of hundredths. *)
Definition float_of_Z (z : Z) : float :=
  if z <? 0 then PrimFloat.opp (PrimFloat.of_uint63 (Uint63.of_Z (- z)))
  else PrimFloat.of_uint63 (Uint63.of_Z z).

Definition thousandths (k : Z) : float := PrimFloat.div (float_of_Z k) 1000%float.

Definition hundredths (m : Z) : float := PrimFloat.div (float_of_Z m) 100%float.

(** [round2] takes [k] thousandths, and minus [k] thousandths, to a nearest
    whole number of hundredths. *)
Definition rounds_to_hundredths (k : Z) : bool :=
  let m := k / 10 in
  ((k mod 10 <=? 5)
   && PrimFloat.eqb (round2 (thousandths k)) (hundredths m)
   && PrimFloat.eqb (round2 (PrimFloat.opp (thousandths k)))
                    (PrimFloat.opp (hundredths m)))
  || ((5 <=? k mod 10)
      && PrimFloat.eqb (round2 (thousandths k)) (hundredths (m + 1))
      && PrimFloat.eqb (round2 (PrimFloat.opp (thousandths k)))
                       (PrimFloat.opp (hundredths (m + 1)))).

(** [p] holds of the [n] integers from [start] on. *)
Fixpoint all_from (p : Z -> bool) (start : Z) (n : nat) : bool :=
  match n with
  | O => true
  | S n' => p start && all_from p (start + 1) n'
  end.

(** *** Sample record sets *)

Definition sample_row (y m d : Z) (btc : float) : Row :=
  mkRow (to_datetime y m d)
        [ btc; 2650.125; 97000.5; 2700.25; 45.678; 61.234; 0.8349;
          31234567890.123; 15234567890.5 ]%float.

(** Three consecutive days in February 2026. *)
Definition sample_df : DataFrame :=
  mkDF table_columns
       [ sample_row 2026 2 10 97123.456%float;
         sample_row 2026 2 11 96500%float;
         sample_row 2026 2 12 95999.994%float ].

(** A valid record set with no record between January 1st and March 1st. *)
Definition gap_df : DataFrame :=
  mkDF table_columns
       [ sample_row 2026 1 1 93000%float; sample_row 2026 3 1 88000%float ].

(** The two records of [gap_df], newest first. *)
Definition descending_df : DataFrame :=
  mkDF table_columns
       [ sample_row 2026 3 1 88000%float; sample_row 2026 1 1 93000%float ].

(** Two days, the second one keyed at noon. *)
Definition intraday_df : DataFrame :=
  mkDF table_columns
       [ sample_row 2026 2 10 97000%float;
         mkRow (to_datetime 2026 2 11 + 12 * 3600 * 1000000000)
               (cells (sample_row 2026 2 11 96000%float)) ].

(** Three days out of order. *)
Definition unsorted_df : DataFrame :=
  mkDF table_columns
       [ sample_row 2026 3 1 88000%float; sample_row 2026 1 1 93000%float;
         sample_row 2026 2 1 90000%float ].

(** A record set without the two volatility columns. *)
Definition no_volatility_df : DataFrame :=
  mkDF [ "btc_price_usd"; "eth_price_usd"; "btc_price_30d_ma"; "eth_price_30d_ma";
         "btc_eth_price_corr_90d"; "btc_volume_7d_ma"; "eth_volume_7d_ma" ]%string
       [ mkRow (to_datetime 2026 2 10)
               [ 97000; 2650; 97000.5; 2700.25; 0.83; 31234567890; 15234567890 ]%float ].

(** The first twenty days of January 2026. *)
Definition january_df : DataFrame :=
  mkDF table_columns
       (map (fun d => sample_row 2026 1 d 93000.129%float)
            [1; 2; 3; 4; 5; 6; 7; 8; 9; 10; 11; 12; 13; 14; 15; 16; 17; 18; 19; 20]).

(** A session in which [sample_df] has been loaded and memoised. *)
Definition sample_world : World :=
  mkWorld (Ok sample_df) (Some sample_df) 1 [sample_df] [].

(** * Properties *)

(** ** The model on concrete inputs *)

Example epoch_is_1970 : _ymd2ord 1970 1 1 = epoch_ordinal.
Proof. reflexivity. Qed.

Example leap_day_2024 : _ymd2ord 2024 3 1 = _ymd2ord 2024 2 29 + 1.
Proof. reflexivity. Qed.

Example band_start_ns : band_start = 1769904000 * 1000000000.
Proof. reflexivity. Qed.

Example band_is_16_days : band_last_day - band_first_day + 1 = 16.
Proof. reflexivity. Qed.

Example round2_price : round2 97123.456%float = 97123.46%float.
Proof. vm_compute. reflexivity. Qed.

Example round2_tie_to_even : round2 0.125%float = 0.12%float.
Proof. vm_compute. reflexivity. Qed.

Example round2_correlation : round2 0.8349%float = 0.83%float.
Proof. vm_compute. reflexivity. Qed.

Example slice_two_of_three :
  filter_df sample_df [_ymd2ord 2026 2 11; _ymd2ord 2026 2 20]
  = Ok (mkDF table_columns (skipn 1 (rows sample_df))).
Proof. vm_compute. reflexivity. Qed.

(** The data-model invariant matters: on a descending index label slicing
    runs from the later to the earlier date, so a pair with start > end
    selects rows. *)
Example descending_index_inverted_range :
  filter_df descending_df [_ymd2ord 2026 3 1; _ymd2ord 2026 1 1] = Ok descending_df.
Proof. vm_compute. reflexivity. Qed.

Example missing_column_raises :
  fig2 (mkDF ["btc_price_usd"%string] []) = Err (mkExn KeyError "'btc_vol_30d'").
Proof. reflexivity. Qed.

Example ord2ymd_inverts_ymd2ord :
  map _ord2ymd [_ymd2ord 2024 2 29; _ymd2ord 2025 12 31; _ymd2ord 2026 2 1]
  = [(2024, 2, 29); (2025, 12, 31); (2026, 2, 1)].
Proof. vm_compute. reflexivity. Qed.

Example absent_bound_on_unsorted_index :
  filter_df unsorted_df [_ymd2ord 2026 1 5; _ymd2ord 2026 2 1]
  = Err (mkExn KeyError "Timestamp('2026-01-05 00:00:00')").
Proof. vm_compute. reflexivity. Qed.

Example scattered_bound_is_refused :
  get_slice_bound
    [to_datetime 2026 2 5; to_datetime 2026 1 1; to_datetime 2026 2 5]
    (_ymd2ord 2026 2 5) Right
  = Err (mkExn KeyError
               "'Cannot get right slice bound for non-unique label: datetime.date(2026, 2, 5)'").
Proof. vm_compute. reflexivity. Qed.

(** ** Facts about the index search *)

Section IndexSearch.

Lemma monotonic_cons (a : Timestamp) (t : list Timestamp) :
  is_monotonic_increasing (a :: t) = true ->
  Forall (fun b => a <= b) t /\ is_monotonic_increasing t = true.
Proof.
  revert a; induction t as [|b t IH]; intros a H.
  - split; [constructor | reflexivity].
  - change (((a <=? b) && is_monotonic_increasing (b :: t))%bool = true) in H.
    apply andb_true_iff in H as [Hab Ht].
    apply Z.leb_le in Hab.
    destruct (IH b Ht) as [Hall _].
    split; [| exact Ht].
    constructor; [exact Hab |].
    eapply Forall_impl; [| exact Hall]. cbv beta. intros; lia.
Qed.

Lemma searchsorted_Left_0 (t : list Timestamp) (v : Timestamp) :
  Forall (fun b => v <= b) t -> searchsorted t v Left = O.
Proof.
  destruct 1 as [|b t Hb _]; [reflexivity |].
  simpl. destruct (b <? v) eqn:E; [apply Z.ltb_lt in E; lia | reflexivity].
Qed.

Lemma searchsorted_Right_0 (t : list Timestamp) (v : Timestamp) :
  Forall (fun b => v < b) t -> searchsorted t v Right = O.
Proof.
  destruct 1 as [|b t Hb _]; [reflexivity |].
  simpl. destruct (b <=? v) eqn:E; [apply Z.leb_le in E; lia | reflexivity].
Qed.

Lemma searchsorted_Left_le_Right (l : list Timestamp) (v : Timestamp) :
  is_monotonic_increasing l = true ->
  (searchsorted l v Left <= searchsorted l v Right)%nat.
Proof.
  induction l as [|a t IH]; intros H; [simpl; lia |].
  destruct (monotonic_cons _ _ H) as [_ Ht].
  simpl. destruct (a <? v) eqn:E1; [| lia].
  apply Z.ltb_lt in E1.
  destruct (a <=? v) eqn:E2; [| apply Z.leb_gt in E2; lia].
  specialize (IH Ht). lia.
Qed.

Lemma positions_absent (t : list Timestamp) (v : Timestamp) (i : nat) :
  Forall (fun b => b <> v) t -> positions t v i = [].
Proof.
  intros H; revert i; induction H as [|b t Hb _ IH]; intros i; [reflexivity |].
  simpl. destruct (b =? v) eqn:E; [apply Z.eqb_eq in E; contradiction | apply IH].
Qed.

(** On an ascending index the occurrences of a label are the run between
    its two insertion points. *)
Lemma positions_monotonic (l : list Timestamp) (v : Timestamp) (i : nat) :
  is_monotonic_increasing l = true ->
  positions l v i =
  seq (i + searchsorted l v Left) (searchsorted l v Right - searchsorted l v Left).
Proof.
  revert i; induction l as [|a t IH]; intros i H; [reflexivity |].
  destruct (monotonic_cons _ _ H) as [Hall Ht].
  simpl. destruct (Z.compare_spec a v) as [Heq | Hlt | Hgt].
  - subst a. rewrite Z.eqb_refl, Z.ltb_irrefl, Z.leb_refl.
    rewrite (IH (S i) Ht), (searchsorted_Left_0 t v Hall).
    rewrite !Nat.add_0_r, !Nat.sub_0_r. reflexivity.
  - assert (E1 : (a =? v) = false) by (apply Z.eqb_neq; lia).
    assert (E2 : (a <? v) = true) by (apply Z.ltb_lt; lia).
    assert (E3 : (a <=? v) = true) by (apply Z.leb_le; lia).
    rewrite E1, E2, E3, (IH (S i) Ht). simpl.
    f_equal. lia.
  - assert (E1 : (a =? v) = false) by (apply Z.eqb_neq; lia).
    assert (E2 : (a <? v) = false) by (apply Z.ltb_ge; lia).
    assert (E3 : (a <=? v) = false) by (apply Z.leb_gt; lia).
    rewrite E1, E2, E3. simpl.
    apply positions_absent.
    eapply Forall_impl; [| exact Hall]. cbv beta. intros; lia.
Qed.

Lemma consecutive_seq (a n : nat) : consecutive (seq a n) = true.
Proof.
  revert a; induction n as [|n IH]; intros a; [reflexivity |].
  destruct n as [|n]; [reflexivity |].
  change (seq a (S (S n))) with (a :: seq (S a) (S n)).
  change (seq (S a) (S n)) with (S a :: seq (S (S a)) n) at 1.
  change ((Nat.eqb (S a) (S a) && consecutive (seq (S a) (S n)))%bool = true).
  rewrite Nat.eqb_refl, IH. reflexivity.
Qed.

Lemma last_seq (a n d : nat) : last (seq (S a) n) d = match n with O => d | S m => (S a + m)%nat end.
Proof.
  revert a d; induction n as [|n IH]; intros a d; [reflexivity |].
  change (seq (S a) (S n)) with (S a :: seq (S (S a)) n).
  destruct n as [|n]; [simpl; f_equal; lia |].
  change (last (S a :: seq (S (S a)) (S n)) d) with (last (seq (S (S a)) (S n)) d).
  rewrite IH. lia.
Qed.

(** On an ascending index a slice bound is the insertion point, whether or
    not the label occurs. *)
Lemma get_slice_bound_monotonic (idx : list Timestamp) (d : date) (side : Side) :
  is_monotonic_increasing idx = true ->
  get_slice_bound idx d side = Ok (searchsorted idx (Timestamp_of_date d) side).
Proof.
  intros H. unfold get_slice_bound. cbv zeta.
  generalize (Timestamp_of_date d). intros v.
  rewrite (positions_monotonic idx v O H).
  pose proof (searchsorted_Left_le_Right idx v H) as Hle.
  simpl (0 + _)%nat.
  destruct (searchsorted idx v Right - searchsorted idx v Left)%nat as [|m] eqn:E.
  - simpl. unfold _searchsorted_monotonic. rewrite H.
    destruct side; [reflexivity | f_equal; lia].
  - pose proof (consecutive_seq (searchsorted idx v Left) (S m)) as Hrun.
    pose proof (last_seq (searchsorted idx v Left) m (searchsorted idx v Left)) as Hlast.
    cbn [seq] in Hrun |- *.
    remember (seq (S (searchsorted idx v Left)) m) as run.
    rewrite Hrun.
    destruct side; [reflexivity |].
    rewrite Hlast. f_equal. destruct m; lia.
Qed.

End IndexSearch.

(** ** Facts about the range filter *)

Section RangeFilter.

Lemma filter_nothing {A} (f : A -> bool) (l : list A) :
  Forall (fun a => f a = false) l -> filter f l = [].
Proof.
  induction 1 as [|a l Ha _ IH]; [reflexivity |].
  simpl. rewrite Ha. exact IH.
Qed.

(** On ascending keys the positional slice between the two insertion
    points is the set of rows within the bounds. *)
Lemma slice_monotonic (rs : list Row) (lo hi : Timestamp) :
  is_monotonic_increasing (map key rs) = true ->
  slice (searchsorted (map key rs) lo Left) (searchsorted (map key rs) hi Right) rs
  = filter (within lo hi) rs.
Proof.
  induction rs as [|r t IH]; intros H; [reflexivity |].
  change (map key (r :: t)) with (key r :: map key t) in *.
  destruct (monotonic_cons _ _ H) as [Hall Ht].
  specialize (IH Ht).
  assert (Hnone : hi < key r -> filter (within lo hi) t = []).
  { intros Hgt. apply filter_nothing.
    rewrite Forall_map in Hall.
    eapply Forall_impl; [| exact Hall]. cbv beta. intros a Ha.
    unfold within. apply andb_false_iff. right. apply Z.leb_gt. lia. }
  unfold slice in *. simpl. unfold within at 1.
  destruct (key r <? lo) eqn:E1, (key r <=? hi) eqn:E2.
  - apply Z.ltb_lt in E1.
    assert (E3 : (lo <=? key r) = false) by (apply Z.leb_gt; lia).
    rewrite E3. simpl. exact IH.
  - apply Z.leb_gt in E2.
    assert (E3 : (lo <=? key r) = false) by (apply Z.leb_gt; apply Z.ltb_lt in E1; lia).
    rewrite E3. simpl. symmetry. apply Hnone. lia.
  - apply Z.ltb_ge in E1.
    assert (E3 : (lo <=? key r) = true) by (apply Z.leb_le; lia).
    rewrite E3. simpl. f_equal.
    rewrite <- IH, searchsorted_Left_0.
    + rewrite Nat.sub_0_r. reflexivity.
    + eapply Forall_impl; [| exact Hall]. cbv beta. intros; lia.
  - apply Z.leb_gt in E2.
    assert (E3 : (lo <=? key r) = true) by (apply Z.leb_le; apply Z.ltb_ge in E1; lia).
    rewrite E3. simpl. symmetry. apply Hnone. lia.
Qed.

Lemma loc_slice_monotonic (df : DataFrame) (start_date end_date : date) :
  is_monotonic_increasing (index df) = true ->
  loc_slice df start_date end_date
  = Ok (mkDF (columns df)
             (filter (within (Timestamp_of_date start_date) (Timestamp_of_date end_date))
                     (rows df))).
Proof.
  intros H. unfold loc_slice.
  rewrite !(get_slice_bound_monotonic _ _ _ H). simpl.
  unfold index in *. rewrite (slice_monotonic _ _ _ H). reflexivity.
Qed.

Lemma copy_eq (df : DataFrame) : copy df = df.
Proof. destruct df; reflexivity. Qed.

Lemma Timestamp_of_date_le (a b : date) :
  Timestamp_of_date a <= Timestamp_of_date b <-> a <= b.
Proof. unfold Timestamp_of_date, ns_per_day. lia. Qed.

(** A timestamp is on or after a midnight exactly when its calendar day
    is. *)
Lemma Timestamp_date_ge (d : date) (t : Timestamp) :
  Timestamp_of_date d <= t <-> d <= Timestamp_date t.
Proof.
  unfold Timestamp_of_date, Timestamp_date, ns_per_day.
  change (86400 * 1000000000) with 86400000000000.
  Z.div_mod_to_equations. lia.
Qed.

(** A midnight is on or before another midnight exactly when its calendar
    day is. *)
Lemma Timestamp_date_le (d : date) (t : Timestamp) :
  t mod ns_per_day = 0 ->
  (t <= Timestamp_of_date d <-> Timestamp_date t <= d).
Proof.
  unfold Timestamp_of_date, Timestamp_date, ns_per_day.
  change (86400 * 1000000000) with 86400000000000.
  Z.div_mod_to_equations. lia.
Qed.

Lemma Timestamp_date_of_date (d : date) :
  Timestamp_date (Timestamp_of_date d) = d.
Proof.
  unfold Timestamp_of_date, Timestamp_date, ns_per_day.
  change (86400 * 1000000000) with 86400000000000.
  rewrite Z.div_mul by lia. lia.
Qed.

Lemma filter_within_inverted (rs : list Row) (lo hi : Timestamp) :
  hi < lo -> filter (within lo hi) rs = [].
Proof.
  intros Hinv. apply filter_nothing, Forall_forall. intros r _.
  unfold within. destruct (lo <=? key r) eqn:E; [| reflexivity].
  apply Z.leb_le in E. simpl. apply Z.leb_gt. lia.
Qed.

(** With unique keys at most one row carries a given key. *)
Lemma filter_key_unique (rs : list Row) (v : Timestamp) :
  is_unique (map key rs) = true ->
  List.length (filter (within v v) rs)
  = if existsb (Z.eqb v) (map key rs) then 1%nat else 0%nat.
Proof.
  induction rs as [|r t IH]; intros H; [reflexivity |].
  simpl in H. apply andb_true_iff in H as [Hr Ht].
  apply negb_true_iff in Hr. specialize (IH Ht).
  simpl. unfold within at 1.
  destruct (Z.eq_dec (key r) v) as [Heq | Hne].
  - rewrite Heq in *. rewrite Z.leb_refl, Z.eqb_refl. simpl.
    rewrite IH, Hr. reflexivity.
  - assert (E : (v =? key r) = false) by (apply Z.eqb_neq; lia).
    rewrite E. simpl.
    destruct ((v <=? key r) && (key r <=? v))%bool eqn:E2; [| exact IH].
    apply andb_true_iff in E2 as [E3 E4].
    apply Z.leb_le in E3, E4. lia.
Qed.

End RangeFilter.

(** ** The range filter (lines 62-66) *)

Lemma filter_df_fallback_like (df : DataFrame) (date_range : list date) :
  List.length date_range <> 2%nat -> filter_df df date_range = Ok df.
Proof.
  intros Hlen. rewrite <- (copy_eq df) at 2.
  destruct date_range as [|a [|b [|c rest]]]; try reflexivity.
  simpl in Hlen. congruence.
Qed.

(** C4: a selection that is not a two-element (start, end) pair makes the
    range filter return the entire unfiltered record set, not an error. *)
Theorem filter_df_fallback_whole_set (df : DataFrame) (date_range : list date) :
  List.length date_range <> 2%nat ->
  filter_df df date_range = Ok df /\
  filter_df df date_range = Ok (copy df).
Proof.
  intros Hlen. pose proof (filter_df_fallback_like df date_range Hlen) as H.
  split; [exact H | rewrite copy_eq; exact H].
Qed.

Lemma filter_df_fallback_whole_set_witness :
  filter_df sample_df [_ymd2ord 2026 2 11] = Ok sample_df /\
  filter_df sample_df [_ymd2ord 2026 2 11] = Ok (copy sample_df).
Proof.
  apply (filter_df_fallback_whole_set sample_df [_ymd2ord 2026 2 11]).
  simpl. discriminate.
Defined.

(** C5: on an ascending date index a two-element selection (start, end)
    yields exactly the records whose date d satisfies start <= d <= end,
    both ends included, in their original order. *)
Theorem filter_df_inclusive_range (df : DataFrame) (start_date end_date : date) :
  is_monotonic_increasing (index df) = true ->
  exists filtered_df,
    filter_df df [start_date; end_date] = Ok filtered_df /\
    columns filtered_df = columns df /\
    rows filtered_df
    = filter (within (Timestamp_of_date start_date) (Timestamp_of_date end_date))
             (rows df) /\
    (is_normalized (index df) = true ->
     rows filtered_df
     = filter (fun r => (start_date <=? Timestamp_date (key r))
                        && (Timestamp_date (key r) <=? end_date))
              (rows df)).
Proof.
  intros Hmono. eexists. split; [apply (loc_slice_monotonic df _ _ Hmono) |].
  simpl. split; [reflexivity |]. split; [reflexivity |].
  intros Hnorm. apply filter_ext_in. intros r Hr.
  unfold is_normalized, index in Hnorm.
  rewrite forallb_forall in Hnorm.
  assert (Hmid : key r mod ns_per_day = 0).
  { apply Z.eqb_eq, Hnorm, in_map, Hr. }
  unfold within. apply eq_true_iff_eq.
  rewrite !andb_true_iff, !Z.leb_le.
  rewrite (Timestamp_date_ge start_date (key r)).
  rewrite (Timestamp_date_le end_date (key r) Hmid). reflexivity.
Qed.

Lemma filter_df_inclusive_range_witness :
  exists filtered_df,
    filter_df sample_df [_ymd2ord 2026 2 11; _ymd2ord 2026 2 12] = Ok filtered_df /\
    columns filtered_df = columns sample_df /\
    rows filtered_df
    = filter (within (Timestamp_of_date (_ymd2ord 2026 2 11))
                     (Timestamp_of_date (_ymd2ord 2026 2 12)))
             (rows sample_df) /\
    (is_normalized (index sample_df) = true ->
     rows filtered_df
     = filter (fun r => (_ymd2ord 2026 2 11 <=? Timestamp_date (key r))
                        && (Timestamp_date (key r) <=? _ymd2ord 2026 2 12))
              (rows sample_df)).
Proof.
  apply (filter_df_inclusive_range sample_df). vm_compute. reflexivity.
Defined.

(** C7: on a valid record set, selecting start = end = min(date) leaves
    exactly one record, or none when that date (at midnight) is not a key
    of the index. *)
Theorem min_date_slice_count (df : DataFrame) (t : Timestamp) :
  is_monotonic_increasing (index df) = true ->
  is_unique (index df) = true ->
  index_min (index df) = Some t ->
  exists filtered_df,
    filter_df df [Timestamp_date t; Timestamp_date t] = Ok filtered_df /\
    List.length (rows filtered_df)
    = (if existsb (Z.eqb (Timestamp_of_date (Timestamp_date t))) (index df)
       then 1%nat else 0%nat) /\
    (is_normalized (index df) = true -> List.length (rows filtered_df) = 1%nat).
Proof.
  intros Hmono Huniq Hmin.
  eexists. split; [apply (loc_slice_monotonic df _ _ Hmono) |].
  simpl. rewrite (filter_key_unique _ _ Huniq).
  change (map key (rows df)) with (index df).
  split; [reflexivity |].
  intros Hnorm.
  assert (Hin : In t (index df)).
  { destruct (index df) as [|a l] eqn:E; [discriminate |].
    simpl in Hmin. injection Hmin as <-.
    destruct (monotonic_cons _ _ Hmono) as [Hall _].
    clear - Hall. left.
    revert a Hall. induction l as [|b l IH]; intros a Hall; [reflexivity |].
    inversion Hall as [|? ? Hb Hl]; subst. simpl.
    rewrite Z.min_l by lia. apply IH.
    eapply Forall_impl; [| exact Hl]. cbv beta. intros; lia. }
  assert (Hmid : t mod ns_per_day = 0).
  { unfold is_normalized in Hnorm. rewrite forallb_forall in Hnorm.
    apply Z.eqb_eq, Hnorm, Hin. }
  assert (Hback : Timestamp_of_date (Timestamp_date t) = t).
  { unfold Timestamp_of_date, Timestamp_date, ns_per_day in *.
    change (86400 * 1000000000) with 86400000000000 in *.
    revert Hmid. Z.div_mod_to_equations. lia. }
  rewrite Hback.
  destruct (existsb (Z.eqb t) (index df)) eqn:E; [reflexivity |].
  assert (existsb (Z.eqb t) (index df) = true); [| congruence].
  apply existsb_exists. exists t. split; [exact Hin | apply Z.eqb_refl].
Qed.

Lemma min_date_slice_count_witness :
  exists filtered_df,
    filter_df sample_df [Timestamp_date (to_datetime 2026 2 10);
                         Timestamp_date (to_datetime 2026 2 10)] = Ok filtered_df /\
    List.length (rows filtered_df)
    = (if existsb (Z.eqb (Timestamp_of_date (Timestamp_date (to_datetime 2026 2 10))))
                  (index sample_df)
       then 1%nat else 0%nat) /\
    (is_normalized (index sample_df) = true -> List.length (rows filtered_df) = 1%nat).
Proof.
  apply (min_date_slice_count sample_df (to_datetime 2026 2 10));
    vm_compute; reflexivity.
Defined.

(** ** Facts about the chart builders *)

Section Builders.

Lemma find_col_present (c : string) (cols : list string) :
  existsb (String.eqb c) cols = true -> exists k, find_col c cols = Some k.
Proof.
  induction cols as [|c' cs IH]; simpl; [discriminate |].
  destruct (String.eqb c c'); [eexists; reflexivity |].
  simpl. intros H. destruct (IH H) as [k ->]. eexists; reflexivity.
Qed.

Lemma has_columns_find (df : DataFrame) :
  has_columns df = true ->
  Forall (fun c => exists k, find_col c (columns df) = Some k) table_columns.
Proof.
  unfold has_columns. rewrite forallb_forall. intros H.
  apply Forall_forall. intros c Hc. apply find_col_present, H, Hc.
Qed.

Lemma has_columns_same (a b : DataFrame) :
  columns a = columns b -> has_columns a = has_columns b.
Proof. unfold has_columns. intros ->. reflexivity. Qed.

End Builders.

(** Name the position of each metric column of a frame that has them all,
    and read the columns of the goal at those positions. *)
Ltac metric_columns H :=
  let F := fresh "F" in
  pose proof (has_columns_find _ H) as F;
  unfold table_columns in F;
  repeat match type of F with
         | Forall _ (_ :: _) =>
             let k := fresh "k" in
             let Hk := fresh "Hk" in
             apply Forall_cons_iff in F as [[k Hk] F]
         end;
  clear F;
  unfold getitem;
  repeat match goal with
         | Hk : find_col ?c ?cols = Some _ |- context [find_col ?c ?cols] =>
             rewrite Hk
         end.

Section BuilderShapes.

Variable df : DataFrame.
Hypothesis Hcols : has_columns df = true.

Lemma fig1_ok :
  exists g, fig1 df = Ok g /\ spans_slice df g /\
    shapes g = (if correction_in_range df then [correction_band] else []) /\
    annotations g = (if correction_in_range df then [correction_annotation] else []).
Proof.
  unfold fig1. metric_columns Hcols. simpl.
  eexists. split; [reflexivity |]. simpl.
  split; [| split; reflexivity].
  unfold spans_slice. simpl.
  repeat constructor; simpl; apply length_map.
Qed.

Lemma fig2_ok : exists g, fig2 df = Ok g /\ spans_slice df g.
Proof.
  unfold fig2. metric_columns Hcols. simpl.
  eexists. split; [reflexivity |].
  unfold spans_slice. simpl.
  repeat constructor; simpl; apply length_map.
Qed.

Lemma fig3_ok : exists g, fig3 df = Ok g /\ spans_slice df g.
Proof.
  unfold fig3, px_line. metric_columns Hcols.
  destruct (rows df) as [|r rs] eqn:Hrows; cbn [rbind].
  - eexists. split; [reflexivity |]. constructor.
  - eexists. split; [reflexivity |].
    unfold spans_slice. cbn [data update_traces map x y]. rewrite Hrows.
    constructor; [| constructor].
    split; [reflexivity | simpl; rewrite length_map; reflexivity].
Qed.

Lemma fig4_ok : exists g, fig4 df = Ok g /\ spans_slice df g.
Proof.
  unfold fig4. metric_columns Hcols. simpl.
  eexists. split; [reflexivity |].
  unfold spans_slice. simpl.
  repeat constructor; simpl; apply length_map.
Qed.

End BuilderShapes.

Section TableShape.

Lemma missing_labels_none (cs cols : list string) :
  forallb (fun c => existsb (String.eqb c) cols) cs = true ->
  missing_labels cs cols = [].
Proof.
  unfold missing_labels. intros H. apply filter_nothing.
  rewrite forallb_forall in H. apply Forall_forall. intros c Hc.
  rewrite (H c Hc). reflexivity.
Qed.

(** The table frame: the last fifteen rows of the slice, each cut down to
    the nine metric columns and rounded. *)
Lemma recent_ok (filtered_df : DataFrame) :
  has_columns filtered_df = true ->
  recent filtered_df
  = Ok (mkDF table_columns
             (map (table_row filtered_df)
                  (skipn (List.length (rows filtered_df) - 15) (rows filtered_df)))).
Proof.
  intros Hcols.
  unfold recent, getitem_list, tail. cbn [columns rows].
  rewrite (missing_labels_none _ _ Hcols). cbn [rbind]. unfold round. cbn [columns rows].
  do 2 f_equal. rewrite map_map. apply map_ext. intros r.
  cbn [key cells]. unfold table_row, cell.
  f_equal; rewrite ?map_map; reflexivity.
Qed.

End TableShape.

Section IndexBounds.

Lemma fold_min_spec (ts : list Timestamp) (t : Timestamp) :
  In (fold_left Z.min ts t) (t :: ts) /\
  Forall (fun a => fold_left Z.min ts t <= a) (t :: ts).
Proof.
  revert t; induction ts as [|b ts IH]; intros t.
  - simpl. split; [left; reflexivity | repeat constructor; lia].
  - simpl fold_left. destruct (IH (Z.min t b)) as [Hin Hall].
    inversion Hall as [|? ? Hhd Htl]; subst.
    split.
    + destruct Hin as [Hin | Hin]; [| right; right; exact Hin].
      rewrite <- Hin. destruct (Z.min_spec t b) as [[_ ->] | [_ ->]];
        [left | right; left]; reflexivity.
    + constructor; [lia |]. constructor; [lia | exact Htl].
Qed.

Lemma fold_max_spec (ts : list Timestamp) (t : Timestamp) :
  In (fold_left Z.max ts t) (t :: ts) /\
  Forall (fun a => a <= fold_left Z.max ts t) (t :: ts).
Proof.
  revert t; induction ts as [|b ts IH]; intros t.
  - simpl. split; [left; reflexivity | repeat constructor; lia].
  - simpl fold_left. destruct (IH (Z.max t b)) as [Hin Hall].
    inversion Hall as [|? ? Hhd Htl]; subst.
    split.
    + destruct Hin as [Hin | Hin]; [| right; right; exact Hin].
      rewrite <- Hin. destruct (Z.max_spec t b) as [[_ ->] | [_ ->]];
        [right; left | left]; reflexivity.
    + constructor; [lia |]. constructor; [lia | exact Htl].
Qed.

Lemma index_min_spec (idx : list Timestamp) (m : Timestamp) :
  index_min idx = Some m -> In m idx /\ forall a, In a idx -> m <= a.
Proof.
  destruct idx as [|t ts]; [discriminate |].
  simpl. intros [= <-]. destruct (fold_min_spec ts t) as [Hin Hall].
  split; [exact Hin |]. exact (proj1 (Forall_forall _ _) Hall).
Qed.

Lemma index_max_spec (idx : list Timestamp) (m : Timestamp) :
  index_max idx = Some m -> In m idx /\ forall a, In a idx -> a <= m.
Proof.
  destruct idx as [|t ts]; [discriminate |].
  simpl. intros [= <-]. destruct (fold_max_spec ts t) as [Hin Hall].
  split; [exact Hin |]. exact (proj1 (Forall_forall _ _) Hall).
Qed.

Lemma index_bounds_exist (idx : list Timestamp) (a : Timestamp) :
  In a idx -> exists lo hi, index_min idx = Some lo /\ index_max idx = Some hi.
Proof.
  destruct idx as [|t ts]; [contradiction |].
  intros _. eexists; eexists; split; reflexivity.
Qed.

Lemma slice_keys_within (rs : list Row) (lo hi k : Timestamp) :
  In k (map key (filter (within lo hi) rs)) <->
  In k (map key rs) /\ lo <= k <= hi.
Proof.
  rewrite !in_map_iff. split.
  - intros (r & <- & Hr). apply filter_In in Hr as [Hr Hw].
    unfold within in Hw. apply andb_true_iff in Hw as [H1 H2].
    apply Z.leb_le in H1, H2. split; [exists r; split; [reflexivity | exact Hr] | lia].
  - intros [(r & <- & Hr) Hk]. exists r. split; [reflexivity |].
    apply filter_In. split; [exact Hr |].
    unfold within. apply andb_true_iff. split; apply Z.leb_le; lia.
Qed.

(** The guard of line 112 holds exactly when the slice has a span and the
    span meets the highlighted interval. *)
Lemma correction_in_range_spec (filtered_df : DataFrame) :
  correction_in_range filtered_df = true <-> span_overlaps filtered_df.
Proof.
  unfold correction_in_range, span_overlaps, le_NaT, ge_NaT. split.
  - intros H. apply andb_true_iff in H as [H1 H2].
    destruct (index_max (index filtered_df)) as [hi|]; [| discriminate].
    destruct (index_min (index filtered_df)) as [lo|]; [| discriminate].
    apply Z.leb_le in H1, H2. exists lo, hi. repeat split; assumption.
  - intros (lo & hi & -> & -> & H1 & H2).
    apply andb_true_iff. split; apply Z.leb_le; assumption.
Qed.

End IndexBounds.

(** ** Frame rules of the session monad *)

Create HintDb frame.

Section Frame.

Lemma extends_refl (w : World) : extends w w.
Proof.
  repeat split. exists []. symmetry. apply app_nil_r.
Qed.

Lemma extends_trans (w1 w2 w3 : World) :
  extends w1 w2 -> extends w2 w3 -> extends w1 w3.
Proof.
  intros (Hf & Hc & Hr & vs & Hh) (Hf' & Hc' & Hr' & vs' & Hh').
  repeat split; try congruence.
  exists (vs ++ vs'). rewrite Hh', Hh, app_assoc. reflexivity.
Qed.

Lemma extends_lookup (w w' : World) (l : loc) (v : DataFrame) :
  extends w w' -> nth_error (heap w) l = Some v -> nth_error (heap w') l = Some v.
Proof.
  intros (_ & _ & _ & vs & ->) Hl.
  rewrite nth_error_app1; [exact Hl |].
  apply nth_error_Some. congruence.
Qed.

Lemma read_only_ret {A} (a : A) : read_only (ret a).
Proof. intros w. apply extends_refl. Qed.

Lemma read_only_raise {A} (e : exn) : read_only (@raise A e).
Proof. intros w. apply extends_refl. Qed.

Lemma read_only_lift {A} (r : result A) : read_only (lift r).
Proof. destruct r; [apply read_only_ret | apply read_only_raise]. Qed.

Lemma read_only_bind {A B} (m : M A) (k : A -> M B) :
  read_only m -> (forall a, read_only (k a)) -> read_only (bind m k).
Proof.
  intros Hm Hk w. unfold bind. specialize (Hm w).
  destruct (m w) as [[a | | e] w1]; simpl in Hm; simpl; try exact Hm.
  eapply extends_trans; [exact Hm | apply Hk].
Qed.

Lemma read_only_st_emit (e : Element) : read_only (st_emit e).
Proof.
  intros w. simpl. repeat split. exists []. symmetry. apply app_nil_r.
Qed.

Lemma read_only_new (v : DataFrame) : read_only (new v).
Proof.
  intros w. simpl. repeat split. exists [v]. reflexivity.
Qed.

Lemma read_only_deref (l : loc) : read_only (deref l).
Proof.
  intros w. unfold deref. destruct (nth_error (heap w) l); apply extends_refl.
Qed.

End Frame.

#[local] Hint Resolve read_only_ret read_only_raise read_only_lift read_only_bind
  read_only_st_emit read_only_new read_only_deref : frame.

Section ScriptFrame.

Lemma read_only_filter_step (df : loc) (date_range : list date) :
  read_only (filter_step df date_range).
Proof. unfold filter_step. auto 10 with frame. Qed.

Lemma read_only_tab1 (l : loc) : read_only (tab1 l).
Proof. unfold tab1. auto 10 with frame. Qed.

Lemma read_only_tab2 (l : loc) : read_only (tab2 l).
Proof. unfold tab2. auto 10 with frame. Qed.

Lemma read_only_tab3 (l : loc) : read_only (tab3 l).
Proof. unfold tab3. auto 10 with frame. Qed.

Lemma read_only_tab4 (l : loc) : read_only (tab4 l).
Proof. unfold tab4. auto 10 with frame. Qed.

Lemma read_only_tab5 (l : loc) : read_only (tab5 l).
Proof. unfold tab5, st_error. auto 10 with frame. Qed.

(** A memoised load reads nothing and hands out a fresh copy of the memo. *)
Lemma load_data_cached (w : World) (df0 : DataFrame) :
  cache w = Some df0 ->
  load_data w = (Val (List.length (heap w)), allocates w [df0]).
Proof.
  intros Hc. unfold load_data, cache_data. rewrite Hc. reflexivity.
Qed.

(** The first load reads the file once and memoises what it returns. *)
Lemma load_data_first (w : World) (df0 : DataFrame) :
  cache w = None -> csv_file w = Ok df0 ->
  load_data w
  = (Val (List.length (heap w)),
     mkWorld (csv_file w) (Some df0) (S (reads w)) (heap w ++ [df0]) (ui w)).
Proof.
  intros Hc Hf. unfold load_data, cache_data, try_except, read_csv.
  rewrite Hc, Hf. reflexivity.
Qed.

End ScriptFrame.

#[local] Hint Resolve read_only_filter_step read_only_tab1 read_only_tab2
  read_only_tab3 read_only_tab4 read_only_tab5 : frame.

(** ** Runs of the script *)

Section Runs.

Lemma lookup_new {A} (h : list A) (v : A) :
  nth_error (h ++ [v]) (List.length h) = Some v.
Proof.
  rewrite nth_error_app2 by lia. rewrite Nat.sub_diag. reflexivity.
Qed.

Lemma lookup_new2 {A} (h : list A) (v u : A) :
  nth_error ((h ++ [v]) ++ [u]) (List.length h) = Some v.
Proof.
  rewrite nth_error_app1 by (rewrite length_app; simpl; lia).
  apply lookup_new.
Qed.

(** After the load the script only creates frames and renders elements. *)
Lemma script_after_load (date_range : list date) (w w1 : World) (l : loc) :
  load_data w = (Val l, w1) -> extends w1 (snd (script date_range w)).
Proof.
  intros Hload. unfold script. unfold bind at 1. rewrite Hload.
  match goal with
  | |- extends _ (snd (?m _)) => assert (Hro : read_only m) by auto 40 with frame
  end.
  apply Hro.
Qed.

Lemma index_bounds_nonempty (df : DataFrame) :
  rows df <> [] ->
  exists lo hi, index_min (index df) = Some lo /\ index_max (index df) = Some hi.
Proof.
  unfold index. destruct (rows df) as [|r rs]; [congruence |].
  intros _. do 2 eexists. split; reflexivity.
Qed.

(** A run over a memoised, non-empty record set whose slice has the metric
    columns completes and renders the whole page. *)
Lemma script_renders (date_range : list date) (w : World)
      (df filtered_df : DataFrame) (g1 g2 g3 g4 : Figure) (t : Styler) :
  cache w = Some df ->
  rows df <> [] ->
  filter_df df date_range = Ok filtered_df ->
  fig1 filtered_df = Ok g1 -> fig2 filtered_df = Ok g2 ->
  fig3 filtered_df = Ok g3 -> fig4 filtered_df = Ok g4 ->
  recent_table filtered_df = Ok t ->
  script date_range w
  = (Val tt, emits (allocates w [df; filtered_df])
                   (page df filtered_df g1 g2 g3 g4 t)).
Proof.
  intros Hc Hrows Hf H1 H2 H3 H4 Ht.
  destruct (index_bounds_nonempty df Hrows) as (lo & hi & Hlo & Hhi).
  unfold script. unfold bind at 1. rewrite (load_data_cached _ _ Hc).
  unfold allocates, emits, page, filter_step, tab1, tab2, tab3, tab4, tab5.
  rewrite !Hlo, !Hhi.
  cbv [bind st_emit deref new lift ret raise].
  repeat (cbn [csv_file cache reads heap ui NaT_date option_map];
          first [ rewrite lookup_new | rewrite lookup_new2
                | rewrite Hlo | rewrite Hhi
                | rewrite Hf | rewrite H1 | rewrite H2 | rewrite H3 | rewrite H4
                | rewrite Ht ];
          cbv beta iota).
  cbn [csv_file cache reads heap ui NaT_date option_map].
  repeat rewrite <- app_assoc. cbn [app]. reflexivity.
Qed.

End Runs.

(** ** Inverted ranges *)

Lemma spans_empty_slice (df : DataFrame) (g : Figure) :
  rows df = [] -> spans_slice df g -> empty_traces g.
Proof.
  intros Hrows Hspan. unfold spans_slice, empty_traces, index in *.
  rewrite Hrows in Hspan. simpl in Hspan.
  eapply Forall_impl; [| exact Hspan]. cbv beta.
  intros t [Hx Hy]. split; [exact Hx |].
  destruct (y t); [reflexivity | discriminate].
Qed.

Section EmptySlice.

Variable f : DataFrame.
Hypothesis Hrows : rows f = [].

Lemma fig1_on_empty (g : Figure) :
  fig1 f = Ok g ->
  List.length (data g) = 4%nat /\ shapes g = [] /\ annotations g = [].
Proof.
  unfold fig1, rbind, correction_in_range, index. rewrite Hrows.
  repeat match goal with |- context [getitem ?d ?c] => destruct (getitem d c) end;
    try discriminate.
  intros [= <-]. repeat split; reflexivity.
Qed.

Lemma fig2_traces (g : Figure) : fig2 f = Ok g -> List.length (data g) = 2%nat.
Proof.
  unfold fig2, rbind.
  repeat match goal with |- context [getitem ?d ?c] => destruct (getitem d c) end;
    try discriminate.
  intros [= <-]. reflexivity.
Qed.

Lemma fig3_on_empty (g : Figure) : fig3 f = Ok g -> data g = [].
Proof.
  unfold fig3, px_line, rbind. rewrite Hrows.
  destruct (getitem f "btc_eth_price_corr_90d"); [| discriminate].
  intros [= <-]. reflexivity.
Qed.

Lemma fig4_traces (g : Figure) : fig4 f = Ok g -> List.length (data g) = 2%nat.
Proof.
  unfold fig4, rbind.
  repeat match goal with |- context [getitem ?d ?c] => destruct (getitem d c) end;
    try discriminate.
  intros [= <-]. reflexivity.
Qed.

End EmptySlice.

Lemma valid_record_set_parts (df : DataFrame) :
  valid_record_set df = true ->
  is_monotonic_increasing (index df) = true /\
  is_unique (index df) = true /\ has_columns df = true.
Proof.
  unfold valid_record_set. rewrite !andb_true_iff. tauto.
Qed.

(** C2: on a loaded record set, a date pair with start > end gives an empty
    slice, and each of the five builders (four figures, the table with its
    export) produces an empty result without raising: the price, volatility
    and volume charts keep their four, two and two traces, each without a
    point, and the price chart has no band; the correlation chart has no
    trace at all; the table and the export have no row.  A run that gets
    such a pair from the picker (the record set then has records)
    completes. *)
Theorem inverted_range_renders_empty (df : DataFrame) (start_date end_date : date) :
  valid_record_set df = true ->
  end_date < start_date ->
  exists filtered_df g1 g2 g3 g4 t,
    filter_df df [start_date; end_date] = Ok filtered_df /\
    rows filtered_df = [] /\
    (fig1 filtered_df = Ok g1 /\ empty_traces g1 /\
     List.length (data g1) = 4%nat /\ shapes g1 = [] /\ annotations g1 = []) /\
    (fig2 filtered_df = Ok g2 /\ empty_traces g2 /\ List.length (data g2) = 2%nat) /\
    (fig3 filtered_df = Ok g3 /\ data g3 = []) /\
    (fig4 filtered_df = Ok g4 /\ empty_traces g4 /\ List.length (data g4) = 2%nat) /\
    (recent_table filtered_df = Ok t /\ rows (styled t) = [] /\
     records (to_csv filtered_df) = []) /\
    forall w, cache w = Some df -> rows df <> [] ->
      script [start_date; end_date] w
      = (Val tt, emits (allocates w [df; filtered_df])
                       (page df filtered_df g1 g2 g3 g4 t)).
Proof.
  intros Hvalid Hinv.
  destruct (valid_record_set_parts _ Hvalid) as (Hmono & _ & Hcols).
  pose proof (loc_slice_monotonic df start_date end_date Hmono) as Hslice.
  rewrite filter_within_inverted in Hslice
    by (apply Z.lt_nge; rewrite Timestamp_of_date_le; lia).
  set (filtered_df := mkDF (columns df) []) in *.
  assert (Hcols' : has_columns filtered_df = true).
  { rewrite <- Hcols. apply has_columns_same. reflexivity. }
  destruct (fig1_ok _ Hcols') as (g1 & H1 & S1 & _).
  destruct (fig2_ok _ Hcols') as (g2 & H2 & S2).
  destruct (fig3_ok _ Hcols') as (g3 & H3 & S3).
  destruct (fig4_ok _ Hcols') as (g4 & H4 & S4).
  pose proof (recent_ok _ Hcols') as Hrecent.
  assert (Ht : recent_table filtered_df
               = Ok (mkStyler (mkDF table_columns []) table_formats)).
  { unfold recent_table. rewrite Hrecent. reflexivity. }
  exists filtered_df, g1, g2, g3, g4, (mkStyler (mkDF table_columns []) table_formats).
  assert (Hempty : rows filtered_df = []) by reflexivity.
  destruct (fig1_on_empty _ Hempty _ H1) as (N1 & B1 & A1).
  pose proof (fig2_traces _ _ H2) as N2.
  pose proof (fig3_on_empty _ Hempty _ H3) as N3.
  pose proof (fig4_traces _ _ H4) as N4.
  split; [exact Hslice |]. split; [reflexivity |].
  repeat split; try assumption;
    try (eapply spans_empty_slice; [| eassumption]; reflexivity).
  intros w Hc Hrows. apply script_renders; assumption.
Qed.

Lemma inverted_range_renders_empty_witness :
  exists filtered_df g1 g2 g3 g4 t,
    filter_df sample_df [_ymd2ord 2026 2 12; _ymd2ord 2026 2 10] = Ok filtered_df /\
    rows filtered_df = [] /\
    (fig1 filtered_df = Ok g1 /\ empty_traces g1 /\
     List.length (data g1) = 4%nat /\ shapes g1 = [] /\ annotations g1 = []) /\
    (fig2 filtered_df = Ok g2 /\ empty_traces g2 /\ List.length (data g2) = 2%nat) /\
    (fig3 filtered_df = Ok g3 /\ data g3 = []) /\
    (fig4 filtered_df = Ok g4 /\ empty_traces g4 /\ List.length (data g4) = 2%nat) /\
    (recent_table filtered_df = Ok t /\ rows (styled t) = [] /\
     records (to_csv filtered_df) = []) /\
    forall w, cache w = Some sample_df -> rows sample_df <> [] ->
      script [_ymd2ord 2026 2 12; _ymd2ord 2026 2 10] w
      = (Val tt, emits (allocates w [sample_df; filtered_df])
                       (page sample_df filtered_df g1 g2 g3 g4 t)).
Proof.
  apply (inverted_range_renders_empty sample_df);
    vm_compute; reflexivity.
Defined.

(** ** The highlighted correction band (lines 112-120) *)

Section Band.

Lemma band_days_ordered : band_first_day <= band_last_day.
Proof. vm_compute. discriminate. Qed.

Lemma band_start_day : band_start = Timestamp_of_date band_first_day.
Proof. reflexivity. Qed.

Lemma band_end_day : band_end = Timestamp_of_date band_last_day.
Proof. reflexivity. Qed.

(** The band is on the figure exactly when the guard of line 112 holds. *)
Lemma band_drawn_guard (filtered_df : DataFrame) (g : Figure) :
  has_columns filtered_df = true ->
  fig1 filtered_df = Ok g ->
  (band_drawn g <-> correction_in_range filtered_df = true).
Proof.
  intros Hcols Hg.
  destruct (fig1_ok _ Hcols) as (g' & Hg' & _ & Hs & Ha).
  rewrite Hg in Hg'. injection Hg' as <-.
  unfold band_drawn. rewrite Hs, Ha.
  destruct (correction_in_range filtered_df); simpl; intuition discriminate.
Qed.

(** The span of a range slice lies inside the selected range. *)
Lemma span_inside_selection (rs : list Row) (cols : list string)
      (start_date end_date : date) :
  span_overlaps
    (mkDF cols (filter (within (Timestamp_of_date start_date)
                               (Timestamp_of_date end_date)) rs)) ->
  ranges_overlap start_date end_date.
Proof.
  intros (lo & hi & Hlo & Hhi & Hb1 & Hb2).
  unfold index in Hlo, Hhi. cbn [rows] in Hlo, Hhi.
  destruct (index_min_spec _ _ Hlo) as [Hlo_in Hlo_le].
  destruct (index_max_spec _ _ Hhi) as [Hhi_in _].
  specialize (Hlo_le _ Hhi_in).
  apply slice_keys_within in Hlo_in as [_ Hlo_in].
  apply slice_keys_within in Hhi_in as [_ Hhi_in].
  rewrite band_start_day in Hb1. rewrite band_end_day in Hb2.
  assert (H1 : band_first_day <= end_date)
    by (apply Timestamp_of_date_le; lia).
  assert (H2 : start_date <= band_last_day)
    by (apply Timestamp_of_date_le; lia).
  assert (H3 : start_date <= end_date)
    by (apply Timestamp_of_date_le; lia).
  pose proof band_days_ordered.
  exists (Z.max start_date band_first_day). lia.
Qed.

(** When both ends of the selection are keys of the record set, the span of
    the slice is the selection itself. *)
Lemma span_is_selection (rs : list Row) (cols : list string)
      (start_date end_date : date) :
  In (Timestamp_of_date start_date) (map key rs) ->
  In (Timestamp_of_date end_date) (map key rs) ->
  start_date <= end_date ->
  ranges_overlap start_date end_date ->
  span_overlaps
    (mkDF cols (filter (within (Timestamp_of_date start_date)
                               (Timestamp_of_date end_date)) rs)).
Proof.
  intros Hs He Hse (d & Hd1 & Hd2).
  apply Timestamp_of_date_le in Hse.
  set (sl := filter _ rs).
  assert (Hs' : In (Timestamp_of_date start_date) (map key sl))
    by (apply slice_keys_within; split; [exact Hs | lia]).
  assert (He' : In (Timestamp_of_date end_date) (map key sl))
    by (apply slice_keys_within; split; [exact He | lia]).
  destruct (index_bounds_exist _ _ Hs') as (lo & hi & Hlo & Hhi).
  exists lo, hi. unfold index. cbn [rows].
  split; [exact Hlo |]. split; [exact Hhi |].
  destruct (index_min_spec _ _ Hlo) as [_ Hlo_le].
  destruct (index_max_spec _ _ Hhi) as [_ Hhi_le].
  specialize (Hlo_le _ Hs'). specialize (Hhi_le _ He').
  rewrite band_start_day, band_end_day.
  assert (Timestamp_of_date band_first_day <= Timestamp_of_date end_date)
    by (apply Timestamp_of_date_le; lia).
  assert (Timestamp_of_date start_date <= Timestamp_of_date band_last_day)
    by (apply Timestamp_of_date_le; lia).
  lia.
Qed.

End Band.

(** C1, as stated, fails: over a record set with no record between January
    1st and March 1st 2026, the range February 5th-10th is one the picker
    offers and lies inside the highlighted interval, yet the slice is empty
    and the price chart carries no band. *)
Lemma band_missing_on_gap :
  valid_record_set gap_df = true /\
  picker_allows gap_df (_ymd2ord 2026 2 5) (_ymd2ord 2026 2 10) /\
  ranges_overlap (_ymd2ord 2026 2 5) (_ymd2ord 2026 2 10) /\
  exists filtered_df g,
    filter_df gap_df [_ymd2ord 2026 2 5; _ymd2ord 2026 2 10] = Ok filtered_df /\
    fig1 filtered_df = Ok g /\
    ~ band_drawn g.
Proof.
  split; [vm_compute; reflexivity |].
  split.
  { eexists; eexists. split; [reflexivity |]. split; [reflexivity |].
    vm_compute. repeat split; discriminate. }
  split.
  { exists (_ymd2ord 2026 2 5). vm_compute. repeat split; discriminate. }
  eexists; eexists. split; [vm_compute; reflexivity |].
  split; [vm_compute; reflexivity |].
  intros [Hshape _]. exact Hshape.
Qed.

(** C1, amended: the band and its annotation are on the price chart exactly
    when the slice is non-empty and the span from its earliest to its latest
    key meets 2026-02-01..2026-02-16.  For a (start, end) selection that
    implies that [start, end] overlaps the interval, and the two are
    equivalent when start <= end are both keys of the record set. *)
Theorem band_iff_slice_span_overlaps (df : DataFrame) (date_range : list date) :
  is_monotonic_increasing (index df) = true ->
  has_columns df = true ->
  exists filtered_df g,
    filter_df df date_range = Ok filtered_df /\
    fig1 filtered_df = Ok g /\
    (band_drawn g <-> span_overlaps filtered_df) /\
    forall start_date end_date,
      date_range = [start_date; end_date] ->
      (band_drawn g -> ranges_overlap start_date end_date) /\
      (In (Timestamp_of_date start_date) (index df) ->
       In (Timestamp_of_date end_date) (index df) ->
       start_date <= end_date ->
       (band_drawn g <-> ranges_overlap start_date end_date)).
Proof.
  intros Hmono Hcols.
  assert (Hf : exists filtered_df,
             filter_df df date_range = Ok filtered_df /\
             columns filtered_df = columns df /\
             forall s e, date_range = [s; e] ->
               filtered_df
               = mkDF (columns df)
                      (filter (within (Timestamp_of_date s) (Timestamp_of_date e))
                              (rows df))).
  { destruct date_range as [|a [|b [|c rest]]];
      try (exists (copy df); split; [reflexivity |];
           split; [reflexivity | intros; discriminate]).
    eexists. split; [apply (loc_slice_monotonic _ _ _ Hmono) |].
    split; [reflexivity |]. intros s e [= <- <-]. reflexivity. }
  destruct Hf as (filtered_df & Hf & Hsame & Hsel).
  assert (Hcols' : has_columns filtered_df = true)
    by (rewrite <- Hcols; apply has_columns_same, Hsame).
  destruct (fig1_ok _ Hcols') as (g & Hg & _).
  pose proof (band_drawn_guard _ _ Hcols' Hg) as Hguard.
  rewrite correction_in_range_spec in Hguard.
  exists filtered_df, g.
  split; [exact Hf |]. split; [exact Hg |]. split; [exact Hguard |].
  intros s e Hrange. rewrite Hguard, (Hsel s e Hrange).
  split; [apply span_inside_selection |].
  intros Hs He Hse. split; [apply span_inside_selection |].
  apply span_is_selection; assumption.
Qed.

Lemma band_iff_slice_span_overlaps_witness :
  exists filtered_df g,
    filter_df sample_df [_ymd2ord 2026 2 10; _ymd2ord 2026 2 12] = Ok filtered_df /\
    fig1 filtered_df = Ok g /\
    (band_drawn g <-> span_overlaps filtered_df) /\
    forall start_date end_date,
      [_ymd2ord 2026 2 10; _ymd2ord 2026 2 12] = [start_date; end_date] ->
      (band_drawn g -> ranges_overlap start_date end_date) /\
      (In (Timestamp_of_date start_date) (index sample_df) ->
       In (Timestamp_of_date end_date) (index sample_df) ->
       start_date <= end_date ->
       (band_drawn g <-> ranges_overlap start_date end_date)).
Proof.
  apply (band_iff_slice_span_overlaps
           sample_df [_ymd2ord 2026 2 10; _ymd2ord 2026 2 12]);
    vm_compute; reflexivity.
Defined.

(** ** Loading (lines 20-37) *)

(** C3: loading fails in two ways, both terminal.  A missing file shows the
    fixed missing-file message, any other exception of the load shows a
    message that ends in the exception's text; either way the run stops
    there, after one read of the file and with nothing memoised.  A load
    that does not raise returns the record set and memoises it. *)
Theorem load_failures_terminal (w : World) (date_range : list date) :
  cache w = None ->
  match csv_file w with
  | Ok df =>
      load_data w
      = (Val (List.length (heap w)),
         mkWorld (csv_file w) (Some df) (S (reads w)) (heap w ++ [df]) (ui w))
  | Err e =>
      script date_range w
      = (Stopped,
         mkWorld (csv_file w) None (S (reads w)) (heap w)
                 (ui w ++ [ErrorBox
                             match cls e with
                             | FileNotFoundError => missing_file_message
                             | _ => String.append "Error loading data: " (text e)
                             end]))
  end.
Proof.
  intros Hc. destruct (csv_file w) as [df | e] eqn:Hf.
  - rewrite <- Hf. apply load_data_first; assumption.
  - unfold script, load_data, cache_data, try_except, read_csv.
    unfold bind at 1. rewrite Hc, Hf.
    destruct (cls e); reflexivity.
Qed.

Lemma load_failures_terminal_witness :
  script [] (mkWorld (Err (mkExn FileNotFoundError "No such file or directory"))
                     None 0 [] [])
  = (Stopped,
     mkWorld (Err (mkExn FileNotFoundError "No such file or directory"))
             None 1 [] [ErrorBox missing_file_message]).
Proof.
  apply (load_failures_terminal
           (mkWorld (Err (mkExn FileNotFoundError "No such file or directory"))
                    None 0 [] []) []).
  reflexivity.
Defined.

(** ** The loaded record set is never written (lines 37-248) *)

Section Memo.

Variable df0 : DataFrame.

Lemma script_keeps_memo (w : World) (date_range : list date) :
  serves w df0 ->
  cache (snd (script date_range w)) = Some df0 /\
  csv_file (snd (script date_range w)) = csv_file w /\
  (cache w = Some df0 -> reads (snd (script date_range w)) = reads w) /\
  exists vs, heap (snd (script date_range w)) = heap w ++ df0 :: vs.
Proof.
  intros [Hc | [Hc Hf]].
  - pose proof (script_after_load date_range _ _ _ (load_data_cached _ _ Hc))
      as (H1 & H2 & H3 & vs & H4).
    simpl in *. repeat split; try congruence.
    exists vs. rewrite H4, <- app_assoc. reflexivity.
  - pose proof (script_after_load date_range _ _ _ (load_data_first _ _ Hc Hf))
      as (H1 & H2 & H3 & vs & H4).
    simpl in *. repeat split; try congruence.
    exists vs. rewrite H4, <- app_assoc. reflexivity.
Qed.

Lemma rerun_keeps_memo (w : World) (date_range : list date) :
  serves w df0 ->
  cache (rerun w date_range) = Some df0 /\
  csv_file (rerun w date_range) = csv_file w.
Proof.
  intros Hs. unfold rerun.
  destruct (script_keeps_memo
              (mkWorld (csv_file w) (cache w) (reads w) [] []) date_range)
    as (H1 & H2 & _); [exact Hs |].
  split; [exact H1 | exact H2].
Qed.

Lemma session_keeps_memo (interactions : list (list date)) (w : World) :
  cache w = Some df0 -> cache (session w interactions) = Some df0.
Proof.
  revert w; induction interactions as [|i rest IH]; intros w Hc; [exact Hc |].
  simpl. apply IH. apply rerun_keeps_memo. left. exact Hc.
Qed.

End Memo.

(** C9: nothing writes the loaded record set.  Whatever the selection, after
    a run the memo holds the record set that [load_data] returned, the
    frames that existed before the run are as they were, and the [df] of
    the run still equals the record set; this stays so over any number of
    interactions.  On the fallback path [filtered_df] is a frame of its own,
    equal to the record set. *)
Theorem record_set_never_mutated (w : World) (df0 : DataFrame) :
  serves w df0 ->
  (forall date_range,
     let w' := snd (script date_range w) in
     cache w' = Some df0 /\
     csv_file w' = csv_file w /\
     (cache w = Some df0 -> reads w' = reads w) /\
     (forall l v, nth_error (heap w) l = Some v -> nth_error (heap w') l = Some v) /\
     nth_error (heap w') (List.length (heap w)) = Some df0) /\
  (forall i interactions, cache (session w (i :: interactions)) = Some df0) /\
  (forall l date_range,
     nth_error (heap w) l = Some df0 ->
     List.length date_range <> 2%nat ->
     exists l' w',
       filter_step l date_range w = (Val l', w') /\
       l' <> l /\
       nth_error (heap w') l' = Some df0 /\
       nth_error (heap w') l = Some df0).
Proof.
  intros Hs. split; [| split].
  - intros date_range w'. subst w'.
    destruct (script_keeps_memo df0 w date_range Hs) as (H1 & H2 & H3 & vs & H4).
    repeat split; try assumption.
    + intros l v Hl. rewrite H4. rewrite nth_error_app1; [exact Hl |].
      apply nth_error_Some. congruence.
    + rewrite H4. rewrite nth_error_app2 by lia.
      rewrite Nat.sub_diag. reflexivity.
  - intros i interactions. simpl.
    apply session_keeps_memo. apply rerun_keeps_memo. exact Hs.
  - intros l date_range Hl Hlen.
    exists (List.length (heap w)), (allocates w [df0]).
    pose proof (filter_df_fallback_like df0 date_range Hlen) as Hf.
    unfold filter_step, bind, deref, lift. rewrite Hl, Hf. simpl.
    split; [reflexivity |].
    assert (Hlt : (l < List.length (heap w))%nat)
      by (apply nth_error_Some; congruence).
    split; [lia |].
    split; [apply lookup_new |].
    rewrite nth_error_app1 by exact Hlt. exact Hl.
Qed.

Lemma record_set_never_mutated_witness :
  (forall date_range,
     cache (snd (script date_range sample_world)) = Some sample_df /\
     csv_file (snd (script date_range sample_world)) = csv_file sample_world /\
     (cache sample_world = Some sample_df ->
      reads (snd (script date_range sample_world)) = reads sample_world) /\
     (forall l v, nth_error (heap sample_world) l = Some v ->
                  nth_error (heap (snd (script date_range sample_world))) l = Some v) /\
     nth_error (heap (snd (script date_range sample_world)))
               (List.length (heap sample_world)) = Some sample_df) /\
  (forall i interactions,
     cache (session sample_world (i :: interactions)) = Some sample_df) /\
  (forall l date_range,
     nth_error (heap sample_world) l = Some sample_df ->
     List.length date_range <> 2%nat ->
     exists l' w',
       filter_step l date_range sample_world = (Val l', w') /\
       l' <> l /\
       nth_error (heap w') l' = Some sample_df /\
       nth_error (heap w') l = Some sample_df).
Proof.
  apply (record_set_never_mutated sample_world sample_df).
  left. reflexivity.
Defined.

(** ** Table and download (lines 224-248) *)

Section Table.

Lemma filter_df_columns (df filtered_df : DataFrame) (date_range : list date) :
  filter_df df date_range = Ok filtered_df -> columns filtered_df = columns df.
Proof.
  assert (Hslice : forall s e, loc_slice df s e = Ok filtered_df ->
                               columns filtered_df = columns df).
  { intros s e. unfold loc_slice, rbind.
    destruct (get_slice_bound _ _ Left); [| discriminate].
    destruct (get_slice_bound _ _ Right); [| discriminate].
    intros [= <-]. reflexivity. }
  destruct date_range as [|a [|b [|c rest]]]; simpl;
    try (intros [= <-]; reflexivity).
  apply Hslice.
Qed.

(** On ascending keys whatever precedes a tail is no more recent than the
    tail. *)
Lemma monotonic_app_le (l1 l2 : list Timestamp) :
  is_monotonic_increasing (l1 ++ l2) = true ->
  forall a b, In a l1 -> In b l2 -> a <= b.
Proof.
  induction l1 as [|a0 l1 IH]; intros H a b Ha Hb; [contradiction |].
  change ((a0 :: l1) ++ l2) with (a0 :: (l1 ++ l2)) in H.
  destruct (monotonic_cons _ _ H) as [Hall Hrest].
  destruct Ha as [<- | Ha]; [| exact (IH Hrest a b Ha Hb)].
  rewrite Forall_forall in Hall. apply Hall, in_or_app. right. exact Hb.
Qed.

Lemma table_cell (df : DataFrame) (rs : list Row) (r : Row) (c : string) :
  In c table_columns ->
  cell (mkDF table_columns rs) (table_row df r) c = round2 (cell df r c).
Proof.
  unfold table_columns at 1. simpl.
  intros H. repeat (destruct H as [<- | H]; [reflexivity |]). contradiction.
Qed.

End Table.

Section ExportShape.

Lemma nth_seq_all {A} (l : list A) (d : A) :
  map (fun k => nth k l d) (seq 0 (List.length l)) = l.
Proof.
  induction l as [|a l IH]; [reflexivity |].
  cbn [List.length seq map nth]. f_equal.
  rewrite <- seq_shift, map_map. exact IH.
Qed.

Lemma fields_length (df : DataFrame) (r : Row) :
  List.length (fields df r) = List.length (columns df).
Proof. unfold fields. rewrite length_map, length_seq. reflexivity. Qed.

Lemma fields_rectangular (df : DataFrame) (r : Row) :
  List.length (cells r) = List.length (columns df) -> fields df r = cells r.
Proof. unfold fields. intros <-. apply nth_seq_all. Qed.

Lemma find_col_lt (c : string) (cols : list string) (k : nat) :
  find_col c cols = Some k -> (k < List.length cols)%nat.
Proof.
  revert k; induction cols as [|c' cs IH]; intros k; simpl; [discriminate |].
  destruct (String.eqb c c'); [intros [= <-]; lia |].
  destruct (find_col c cs) as [k' |]; [| discriminate].
  intros [= <-]. specialize (IH k' eq_refl). lia.
Qed.

(** An exported field is the cell of its column, as stored. *)
Lemma fields_cell (df : DataFrame) (r : Row) (c : string) (k : nat) :
  find_col c (columns df) = Some k -> nth k (fields df r) nan = cell df r c.
Proof.
  intros Hk. unfold cell, fields. rewrite Hk.
  pose proof (find_col_lt _ _ _ Hk) as Hlt.
  rewrite (nth_indep _ nan (nth 0 (cells r) nan))
    by (rewrite length_map, length_seq; exact Hlt).
  rewrite (map_nth (fun k => nth k (cells r) nan)), seq_nth by exact Hlt.
  reflexivity.
Qed.

Lemma all_from_spec (p : Z -> bool) (n : nat) (start : Z) :
  all_from p start n = true ->
  forall k, start <= k < start + Z.of_nat n -> p k = true.
Proof.
  revert start; induction n as [|n IH]; intros start H k Hk; [lia |].
  cbn [all_from] in H. apply andb_true_iff in H as [Hp Hrest].
  destruct (Z.eq_dec k start) as [-> | Hne]; [exact Hp |].
  apply (IH (start + 1) Hrest). lia.
Qed.

(** Amounts of 0.000 to 99.999, and their negatives, are rounded to a
    nearest hundredth. *)
Lemma round2_hundredths_checked : all_from rounds_to_hundredths 0 100000 = true.
Proof. vm_compute. reflexivity. Qed.

End ExportShape.

(** C8: the table view holds the last fifteen rows of the slice (all of them
    when there are fewer), the most recent ones on an ascending index, cut
    down to the nine metric columns and carrying the fixed display formats;
    the download holds every row of the slice with one field for each of
    its columns. *)
Theorem table_recent_export_full (df filtered_df : DataFrame)
        (date_range : list date) :
  filter_df df date_range = Ok filtered_df ->
  has_columns df = true ->
  let n := List.length (rows filtered_df) in
  exists t,
    recent_table filtered_df = Ok t /\
    formats t
    = [ ("btc_price_usd", "${:,.0f}"); ("eth_price_usd", "${:,.0f}");
        ("btc_price_30d_ma", "${:,.0f}"); ("eth_price_30d_ma", "${:,.0f}");
        ("btc_vol_30d", "{:.1f}%"); ("eth_vol_30d", "{:.1f}%");
        ("btc_eth_price_corr_90d", "{:.3f}") ]%string /\
    columns (styled t)
    = [ "btc_price_usd"; "eth_price_usd"; "btc_price_30d_ma"; "eth_price_30d_ma";
        "btc_vol_30d"; "eth_vol_30d"; "btc_eth_price_corr_90d";
        "btc_volume_7d_ma"; "eth_volume_7d_ma" ]%string /\
    rows (styled t) = map (table_row filtered_df) (skipn (n - 15) (rows filtered_df)) /\
    List.length (rows (styled t)) = Nat.min 15 n /\
    index (styled t) = skipn (n - 15) (index filtered_df) /\
    (is_monotonic_increasing (index filtered_df) = true ->
     forall a b, In a (firstn (n - 15) (index filtered_df)) ->
                 In b (index (styled t)) -> a <= b) /\
    header (to_csv filtered_df) = "date"%string :: columns df /\
    map fst (records (to_csv filtered_df)) = index filtered_df /\
    List.length (records (to_csv filtered_df)) = n /\
    Forall (fun rec => List.length (snd rec) = List.length (columns df))
           (records (to_csv filtered_df)) /\
    (Forall (fun r => List.length (cells r) = List.length (columns df))
            (rows filtered_df) ->
     map snd (records (to_csv filtered_df)) = map cells (rows filtered_df)) /\
    (forall w, cache w = Some df -> rows df <> [] ->
       exists g1 g2 g3 g4,
         script date_range w
         = (Val tt, emits (allocates w [df; filtered_df])
                          (page df filtered_df g1 g2 g3 g4 t))).
Proof.
  intros Hf Hcols n.
  pose proof (filter_df_columns _ _ _ Hf) as Hsame.
  assert (Hcols' : has_columns filtered_df = true)
    by (rewrite <- Hcols; apply has_columns_same, Hsame).
  destruct (fig1_ok _ Hcols') as (g1 & H1 & _).
  destruct (fig2_ok _ Hcols') as (g2 & H2 & _).
  destruct (fig3_ok _ Hcols') as (g3 & H3 & _).
  destruct (fig4_ok _ Hcols') as (g4 & H4 & _).
  pose proof (recent_ok _ Hcols') as Hrecent. fold n in Hrecent.
  set (shown := map (table_row filtered_df) (skipn (n - 15) (rows filtered_df))) in *.
  assert (Ht : recent_table filtered_df
               = Ok (mkStyler (mkDF table_columns shown) table_formats)).
  { unfold recent_table. rewrite Hrecent. reflexivity. }
  assert (Hidx : index (mkDF table_columns shown) = skipn (n - 15) (index filtered_df)).
  { unfold index, shown. cbn [rows]. rewrite map_map.
    rewrite <- skipn_map. reflexivity. }
  exists (mkStyler (mkDF table_columns shown) table_formats).
  split; [exact Ht |].
  cbn [formats styled columns rows].
  split; [reflexivity |]. split; [reflexivity |]. split; [reflexivity |].
  split; [unfold shown; rewrite length_map, length_skipn; fold n; lia |].
  split; [exact Hidx |].
  split.
  { intros Hmono a b Ha Hb. rewrite Hidx in Hb.
    rewrite <- (firstn_skipn (n - 15) (index filtered_df)) in Hmono.
    exact (monotonic_app_le _ _ Hmono a b Ha Hb). }
  split; [simpl; rewrite Hsame; reflexivity |].
  split; [unfold to_csv, index; cbn [records]; rewrite map_map; reflexivity |].
  split; [unfold to_csv; cbn [records]; apply length_map |].
  split.
  { unfold to_csv. cbn [records]. apply Forall_map, Forall_forall.
    intros r _. cbn [snd]. rewrite fields_length, Hsame. reflexivity. }
  split.
  { intros Hrect. unfold to_csv. cbn [records]. rewrite map_map. cbn [snd].
    apply map_ext_in. intros r Hr. apply fields_rectangular.
    rewrite Forall_forall in Hrect. rewrite Hsame. exact (Hrect r Hr). }
  intros w Hc Hrows. exists g1, g2, g3, g4.
  apply script_renders; assumption.
Qed.

Lemma table_recent_export_full_witness :
  exists t,
    recent_table january_df = Ok t /\
    List.length (rows (styled t)) = 15%nat /\
    index (styled t) = skipn 5 (index january_df) /\
    List.length (records (to_csv january_df)) = 20%nat /\
    map snd (records (to_csv january_df)) = map cells (rows january_df).
Proof.
  destruct (table_recent_export_full january_df january_df [])
    as (t & Ht & _ & _ & _ & Hlen & Hidx & _ & _ & _ & Hrec & _ & Hcells & _);
    [reflexivity | vm_compute; reflexivity |].
  exists t. split; [exact Ht |]. split; [exact Hlen |]. split; [exact Hidx |].
  split; [exact Hrec |].
  apply Hcells. repeat constructor.
Defined.

(** C10: the table view shows every value rounded to two decimals by
    [round2], which takes an amount to a nearest hundredth (checked for
    every amount of whole thousandths from -99.999 to 99.999); the download
    carries the values of the slice as they are stored; so there are record
    sets on which a shown value differs from the exported one: 97123.46
    against 97123.456. *)
Theorem table_rounded_export_exact (filtered_df : DataFrame) :
  has_columns filtered_df = true ->
  (exists t,
     recent_table filtered_df = Ok t /\
     forall r,
       In r (skipn (List.length (rows filtered_df) - 15) (rows filtered_df)) ->
       In (table_row filtered_df r) (rows (styled t)) /\
       In (key r, fields filtered_df r) (records (to_csv filtered_df)) /\
       (forall c, In c table_columns ->
                  cell (styled t) (table_row filtered_df r) c
                  = round2 (cell filtered_df r c)) /\
       (forall c k, find_col c (columns filtered_df) = Some k ->
                    nth k (fields filtered_df r) nan = cell filtered_df r c)) /\
  (forall k : Z,
     0 <= k < 100000 ->
     exists m : Z,
       Z.abs (10 * m - k) <= 5 /\
       PrimFloat.eqb (round2 (thousandths k)) (hundredths m) = true /\
       PrimFloat.eqb (round2 (PrimFloat.opp (thousandths k)))
                     (PrimFloat.opp (hundredths m)) = true) /\
  (exists sliced t r,
     filter_df sample_df [] = Ok sliced /\
     recent_table sliced = Ok t /\
     In (table_row sliced r) (rows (styled t)) /\
     In (key r, fields sliced r) (records (to_csv sliced)) /\
     cell (styled t) (table_row sliced r) "btc_price_usd" = 97123.46%float /\
     nth 0 (fields sliced r) nan = 97123.456%float /\
     cell (styled t) (table_row sliced r) "btc_price_usd"
     <> nth 0 (fields sliced r) nan).
Proof.
  intros Hcols. split; [| split].
  - pose proof (recent_ok _ Hcols) as Hrecent.
    eexists. split; [unfold recent_table; rewrite Hrecent; reflexivity |].
    cbn [styled rows]. intros r Hr. split; [apply in_map, Hr |].
    split.
    { unfold to_csv. cbn [records].
      apply (in_map (fun r => (key r, fields filtered_df r))).
      rewrite <- (firstn_skipn (List.length (rows filtered_df) - 15) (rows filtered_df)).
      apply in_or_app. right. exact Hr. }
    split; [intros c Hc; apply table_cell, Hc |].
    intros c k Hk. exact (fields_cell _ _ _ _ Hk).
  - intros k Hk.
    assert (Hcheck : rounds_to_hundredths k = true).
    { apply (all_from_spec _ _ _ round2_hundredths_checked).
      replace (Z.of_nat 100000) with 100000 by (vm_compute; reflexivity). lia. }
    unfold rounds_to_hundredths in Hcheck.
    apply orb_true_iff in Hcheck as [H | H];
      apply andb_true_iff in H as [H Hneg];
      apply andb_true_iff in H as [Hdigit Hpos].
    + exists (k / 10). apply Z.leb_le in Hdigit.
      split; [| split; assumption].
      revert Hdigit. Z.div_mod_to_equations. lia.
    + exists (k / 10 + 1). apply Z.leb_le in Hdigit.
      split; [| split; assumption].
      revert Hdigit. Z.div_mod_to_equations. lia.
  - exists sample_df.
    exists (mkStyler (mkDF table_columns (map (table_row sample_df) (rows sample_df)))
                     table_formats).
    exists (sample_row 2026 2 10 97123.456%float).
    split; [reflexivity |].
    split; [vm_compute; reflexivity |].
    split; [left; reflexivity |].
    split; [left; reflexivity |].
    split; [vm_compute; reflexivity |].
    split; [vm_compute; reflexivity |].
    intros H.
    apply (f_equal (fun v => PrimFloat.eqb v 97123.456%float)) in H.
    vm_compute in H. discriminate.
Qed.

Lemma table_rounded_export_exact_witness :
  exists t,
    recent_table sample_df = Ok t /\
    forall r,
      In r (skipn (List.length (rows sample_df) - 15) (rows sample_df)) ->
      In (table_row sample_df r) (rows (styled t)) /\
      In (key r, fields sample_df r) (records (to_csv sample_df)) /\
      (forall c, In c table_columns ->
                 cell (styled t) (table_row sample_df r) c
                 = round2 (cell sample_df r c)) /\
      (forall c k, find_col c (columns sample_df) = Some k ->
                   nth k (fields sample_df r) nan = cell sample_df r c).
Proof.
  apply (table_rounded_export_exact sample_df). vm_compute. reflexivity.
Defined.

(** * Further properties of the script *)

(** ** The slice as a part of the record set (lines 62-66) *)

Section SliceStructure.

Lemma slice_split {A} (i j : nat) (l : list A) :
  exists before after, l = before ++ slice i j l ++ after.
Proof.
  exists (firstn i l), (skipn (j - i) (skipn i l)).
  unfold slice. rewrite (firstn_skipn (j - i) (skipn i l)).
  symmetry. apply firstn_skipn.
Qed.

Lemma monotonic_app_l (l1 l2 : list Timestamp) :
  is_monotonic_increasing (l1 ++ l2) = true -> is_monotonic_increasing l1 = true.
Proof.
  induction l1 as [|a l1 IH]; intros H; [reflexivity |].
  destruct l1 as [|b l1]; [reflexivity |].
  change (((a <=? b) && is_monotonic_increasing ((b :: l1) ++ l2))%bool = true) in H.
  apply andb_true_iff in H as [Hab Hrest].
  change (((a <=? b) && is_monotonic_increasing (b :: l1))%bool = true).
  rewrite Hab. exact (IH Hrest).
Qed.

Lemma monotonic_app_r (l1 l2 : list Timestamp) :
  is_monotonic_increasing (l1 ++ l2) = true -> is_monotonic_increasing l2 = true.
Proof.
  induction l1 as [|a l1 IH]; intros H; [exact H |].
  apply IH. exact (proj2 (monotonic_cons _ _ H)).
Qed.

Lemma existsb_app_false (a : Timestamp) (l1 l2 : list Timestamp) :
  existsb (Z.eqb a) (l1 ++ l2) = false ->
  existsb (Z.eqb a) l1 = false /\ existsb (Z.eqb a) l2 = false.
Proof. rewrite existsb_app. apply orb_false_iff. Qed.

Lemma unique_app_l (l1 l2 : list Timestamp) :
  is_unique (l1 ++ l2) = true -> is_unique l1 = true.
Proof.
  induction l1 as [|a l1 IH]; intros H; [reflexivity |].
  simpl in H. apply andb_true_iff in H as [Ha Hrest].
  apply negb_true_iff, existsb_app_false in Ha as [Ha _].
  simpl. rewrite Ha. exact (IH Hrest).
Qed.

Lemma unique_app_r (l1 l2 : list Timestamp) :
  is_unique (l1 ++ l2) = true -> is_unique l2 = true.
Proof.
  induction l1 as [|a l1 IH]; intros H; [exact H |].
  simpl in H. apply andb_true_iff in H as [_ Hrest]. exact (IH Hrest).
Qed.

Lemma filter_everything {A} (f : A -> bool) (l : list A) :
  Forall (fun a => f a = true) l -> filter f l = l.
Proof.
  induction 1 as [|a l Ha _ IH]; [reflexivity |].
  simpl. rewrite Ha, IH. reflexivity.
Qed.

Lemma filter_filter_implied {A} (f g : A -> bool) (l : list A) :
  (forall a, f a = true -> g a = true) -> filter f (filter g l) = filter f l.
Proof.
  intros Himp. induction l as [|a l IH]; [reflexivity |].
  simpl. destruct (g a) eqn:Eg.
  - simpl. rewrite IH. reflexivity.
  - destruct (f a) eqn:Ef; [rewrite (Himp a Ef) in Eg; discriminate | exact IH].
Qed.

Lemma filter_df_run (df filtered_df : DataFrame) (date_range : list date) :
  filter_df df date_range = Ok filtered_df ->
  exists before after, rows df = before ++ rows filtered_df ++ after.
Proof.
  intros Hf.
  assert (Hslice : forall s e, loc_slice df s e = Ok filtered_df ->
            exists before after, rows df = before ++ rows filtered_df ++ after).
  { intros s e. unfold loc_slice, rbind.
    destruct (get_slice_bound _ _ Left) as [i |]; [| discriminate].
    destruct (get_slice_bound _ _ Right) as [j |]; [| discriminate].
    intros [= <-]. cbn [rows]. apply slice_split. }
  destruct date_range as [|a [|b [|c rest]]]; simpl in Hf;
    try (injection Hf as <-; exists [], []; cbn [rows copy];
         rewrite app_nil_r; reflexivity).
  exact (Hslice _ _ Hf).
Qed.

End SliceStructure.

(** Whatever the index and the selection, a filter that does not raise
    returns the record set's columns and one unbroken run of its rows: no
    row is changed, repeated or moved. *)
Theorem filter_df_contiguous_run (df filtered_df : DataFrame) (date_range : list date) :
  filter_df df date_range = Ok filtered_df ->
  columns filtered_df = columns df /\
  (exists before after, rows df = before ++ rows filtered_df ++ after) /\
  (List.length (rows filtered_df) <= List.length (rows df))%nat.
Proof.
  intros Hf. split; [exact (filter_df_columns _ _ _ Hf) |].
  pose proof (filter_df_run _ _ _ Hf) as Hrun.
  split; [exact Hrun |].
  destruct Hrun as (before & after & ->). rewrite !length_app. lia.
Qed.

Lemma filter_df_contiguous_run_witness :
  columns (mkDF table_columns (skipn 1 (rows sample_df))) = columns sample_df /\
  (exists before after,
     rows sample_df
     = before ++ rows (mkDF table_columns (skipn 1 (rows sample_df))) ++ after) /\
  (List.length (rows (mkDF table_columns (skipn 1 (rows sample_df))))
   <= List.length (rows sample_df))%nat.
Proof.
  apply (filter_df_contiguous_run
           sample_df _ [_ymd2ord 2026 2 11; _ymd2ord 2026 2 20]).
  vm_compute. reflexivity.
Defined.

Lemma filter_df_total_on_ascending (df : DataFrame) (date_range : list date) :
  is_monotonic_increasing (index df) = true ->
  exists filtered_df, filter_df df date_range = Ok filtered_df.
Proof.
  intros Hmono.
  destruct date_range as [|a [|b [|c rest]]]; try (eexists; reflexivity).
  eexists. apply (loc_slice_monotonic _ _ _ Hmono).
Qed.

Lemma valid_slice (df filtered_df : DataFrame) (date_range : list date) :
  valid_record_set df = true ->
  filter_df df date_range = Ok filtered_df ->
  valid_record_set filtered_df = true.
Proof.
  intros Hvalid Hf.
  destruct (valid_record_set_parts _ Hvalid) as (Hmono & Huniq & Hcols).
  assert (Hsame : columns filtered_df = columns df)
    by exact (filter_df_columns _ _ _ Hf).
  destruct (filter_df_run _ _ _ Hf) as (before & after & Hrun).
  unfold valid_record_set, index in *. rewrite Hrun, !map_app in Hmono, Huniq.
  rewrite (monotonic_app_l _ _ (monotonic_app_r _ _ Hmono)).
  rewrite (unique_app_l _ _ (unique_app_r _ _ Huniq)).
  rewrite (has_columns_same _ _ Hsame), Hcols. reflexivity.
Qed.

(** The slice of a valid record set is a valid record set again, for every
    selection: the filter never raises on it, and keys stay ascending and
    unique and the metric columns stay. *)
Theorem filter_df_keeps_invariant (df : DataFrame) (date_range : list date) :
  valid_record_set df = true ->
  exists filtered_df,
    filter_df df date_range = Ok filtered_df /\
    valid_record_set filtered_df = true.
Proof.
  intros Hvalid.
  destruct (valid_record_set_parts _ Hvalid) as (Hmono & _ & _).
  destruct (filter_df_total_on_ascending df date_range Hmono) as (filtered_df & Hf).
  exists filtered_df. split; [exact Hf |].
  exact (valid_slice _ _ _ Hvalid Hf).
Qed.

Lemma filter_df_keeps_invariant_witness :
  exists filtered_df,
    filter_df sample_df [_ymd2ord 2026 2 11; _ymd2ord 2026 2 20] = Ok filtered_df /\
    valid_record_set filtered_df = true.
Proof.
  apply (filter_df_keeps_invariant sample_df). vm_compute. reflexivity.
Defined.

(** Narrowing in two steps is narrowing at once: on an ascending index,
    filtering the slice of a range by a range inside it gives the slice that
    the inner range cuts from the record set. *)
Theorem filter_df_nested_ranges (df outer : DataFrame) (s e s' e' : date) :
  is_monotonic_increasing (index df) = true ->
  s' <= s -> e <= e' ->
  filter_df df [s'; e'] = Ok outer ->
  filter_df outer [s; e] = filter_df df [s; e] /\
  (forall inner, filter_df df [s; e] = Ok inner ->
                 forall r, In r (rows inner) -> In r (rows outer)).
Proof.
  intros Hmono Hs He Houter.
  destruct (filter_df_run _ _ _ Houter) as (before & after & Hrun).
  assert (Hmono' : is_monotonic_increasing (index outer) = true).
  { unfold index in *. rewrite Hrun, !map_app in Hmono.
    exact (monotonic_app_l _ _ (monotonic_app_r _ _ Hmono)). }
  simpl in Houter |- *.
  rewrite (loc_slice_monotonic _ _ _ Hmono) in Houter.
  injection Houter as <-.
  rewrite (loc_slice_monotonic _ _ _ Hmono'), (loc_slice_monotonic _ _ _ Hmono).
  cbn [columns rows].
  assert (Hboth : forall r, within (Timestamp_of_date s) (Timestamp_of_date e) r = true ->
                            within (Timestamp_of_date s') (Timestamp_of_date e') r = true).
  { intros r. unfold within. rewrite !andb_true_iff, !Z.leb_le.
    apply Timestamp_of_date_le in Hs, He. lia. }
  split.
  - do 2 f_equal. apply filter_filter_implied. exact Hboth.
  - intros inner [= <-] r. cbn [rows]. rewrite !filter_In.
    intros [Hr Hw]. split; [exact Hr | exact (Hboth r Hw)].
Qed.

Lemma filter_df_nested_ranges_witness :
  filter_df (mkDF table_columns (skipn 1 (rows sample_df)))
            [_ymd2ord 2026 2 12; _ymd2ord 2026 2 12]
  = filter_df sample_df [_ymd2ord 2026 2 12; _ymd2ord 2026 2 12] /\
  (forall inner,
     filter_df sample_df [_ymd2ord 2026 2 12; _ymd2ord 2026 2 12] = Ok inner ->
     forall r, In r (rows inner) ->
               In r (rows (mkDF table_columns (skipn 1 (rows sample_df))))).
Proof.
  apply (filter_df_nested_ranges
           sample_df _ (_ymd2ord 2026 2 12) (_ymd2ord 2026 2 12)
           (_ymd2ord 2026 2 11) (_ymd2ord 2026 2 20));
    vm_compute; first [reflexivity | discriminate].
Defined.

(** ** The default selection of the date picker (lines 54-59) *)

Section DefaultRange.

Lemma midnight_before (t : Timestamp) :
  Timestamp_of_date (Timestamp_date t) <= t /\
  (Timestamp_of_date (Timestamp_date t) = t <-> t mod ns_per_day = 0).
Proof.
  unfold Timestamp_of_date, Timestamp_date, ns_per_day.
  change (86400 * 1000000000) with 86400000000000.
  Z.div_mod_to_equations. lia.
Qed.

Lemma filter_length_lt {A} (f : A -> bool) (l : list A) (a : A) :
  In a l -> f a = false -> (List.length (filter f l) < List.length l)%nat.
Proof.
  induction l as [|b l IH]; intros Hin Hf; [contradiction |].
  pose proof (filter_length_le f l) as Hle.
  simpl. destruct Hin as [-> | Hin].
  - rewrite Hf. lia.
  - specialize (IH Hin Hf). destruct (f b); simpl; lia.
Qed.

End DefaultRange.

(** The picker's default, (first day, last day) of the data, selects the
    whole record set when the index is ascending and its last key is a
    midnight, as in an index of calendar dates. *)
Theorem default_range_whole_set (df : DataFrame) (lo hi : Timestamp) :
  is_monotonic_increasing (index df) = true ->
  index_min (index df) = Some lo ->
  index_max (index df) = Some hi ->
  hi mod ns_per_day = 0 ->
  filter_df df [Timestamp_date lo; Timestamp_date hi] = Ok df.
Proof.
  intros Hmono Hlo Hhi Hmid. simpl.
  rewrite (loc_slice_monotonic _ _ _ Hmono).
  destruct (index_min_spec _ _ Hlo) as [_ Hmin].
  destruct (index_max_spec _ _ Hhi) as [_ Hmax].
  rewrite filter_everything; [destruct df; reflexivity |].
  apply Forall_forall. intros r Hr.
  assert (Hk : In (key r) (index df)) by (apply in_map, Hr).
  specialize (Hmin _ Hk). specialize (Hmax _ Hk).
  destruct (midnight_before lo) as [Hlo' _].
  destruct (midnight_before hi) as [_ Hhi'].
  apply Hhi' in Hmid.
  unfold within. apply andb_true_iff. split; apply Z.leb_le; lia.
Qed.

Lemma default_range_whole_set_witness :
  filter_df sample_df [Timestamp_date (to_datetime 2026 2 10);
                       Timestamp_date (to_datetime 2026 2 12)] = Ok sample_df.
Proof.
  apply (default_range_whole_set sample_df); vm_compute; reflexivity.
Defined.

(** When the last key of an ascending index carries a time of day, the
    default selection ends at the midnight before it: the slice has no
    record with that key and is shorter than the record set. *)
Theorem default_range_drops_after_midnight (df : DataFrame) (lo hi : Timestamp) :
  is_monotonic_increasing (index df) = true ->
  index_min (index df) = Some lo ->
  index_max (index df) = Some hi ->
  hi mod ns_per_day <> 0 ->
  exists filtered_df,
    filter_df df [Timestamp_date lo; Timestamp_date hi] = Ok filtered_df /\
    In hi (index df) /\
    ~ In hi (index filtered_df) /\
    (List.length (rows filtered_df) < List.length (rows df))%nat.
Proof.
  intros Hmono Hlo Hhi Hmid.
  eexists. split; [apply (loc_slice_monotonic _ _ _ Hmono) |].
  destruct (index_max_spec _ _ Hhi) as [Hin _].
  destruct (midnight_before hi) as [Hle Heq].
  assert (Hlt : Timestamp_of_date (Timestamp_date hi) < hi).
  { destruct (Z.eq_dec (Timestamp_of_date (Timestamp_date hi)) hi) as [E | E];
      [apply Heq in E; contradiction | lia]. }
  split; [exact Hin |]. split.
  - unfold index. cbn [rows]. intros H.
    apply slice_keys_within in H as [_ H]. lia.
  - cbn [rows]. unfold index in Hin. apply in_map_iff in Hin as (r & Hk & Hr).
    apply (filter_length_lt _ _ r Hr).
    unfold within. apply andb_false_iff. right. apply Z.leb_gt. lia.
Qed.

Lemma default_range_drops_after_midnight_witness :
  exists filtered_df,
    filter_df intraday_df
              [Timestamp_date (to_datetime 2026 2 10);
               Timestamp_date (to_datetime 2026 2 11 + 12 * 3600 * 1000000000)]
    = Ok filtered_df /\
    In (to_datetime 2026 2 11 + 12 * 3600 * 1000000000) (index intraday_df) /\
    ~ In (to_datetime 2026 2 11 + 12 * 3600 * 1000000000) (index filtered_df) /\
    (List.length (rows filtered_df) < List.length (rows intraday_df))%nat.
Proof.
  apply (default_range_drops_after_midnight intraday_df);
    vm_compute; first [reflexivity | discriminate].
Defined.

(** ** Uncaught failures of filtering and chart building (lines 62-248) *)

Section Failures.

Lemma get_slice_bound_KeyError (idx : list Timestamp) (d : date) (side : Side)
      (ex : exn) :
  get_slice_bound idx d side = Err ex -> cls ex = KeyError.
Proof.
  unfold get_slice_bound. cbv zeta.
  destruct (positions idx (Timestamp_of_date d) 0) as [|p ps].
  - destruct (_searchsorted_monotonic idx (Timestamp_of_date d) side);
      [discriminate |].
    intros [= <-]. reflexivity.
  - destruct (consecutive (p :: ps)); [discriminate |].
    intros [= <-]. reflexivity.
Qed.

Lemma get_slice_bound_absent (idx : list Timestamp) (d : date) (side : Side) :
  is_monotonic_increasing idx = false ->
  is_monotonic_decreasing idx = false ->
  ~ In (Timestamp_of_date d) idx ->
  get_slice_bound idx d side = Err (mkExn KeyError (midnight_repr d)).
Proof.
  intros Hinc Hdec Habs. unfold get_slice_bound, _searchsorted_monotonic.
  cbv zeta.
  rewrite positions_absent, Hinc, Hdec; [reflexivity |].
  apply Forall_forall. intros b Hb ->. exact (Habs Hb).
Qed.

(** A filter that raises ends the run right after the date picker. *)
Lemma script_filter_raises (date_range : list date) (w : World)
      (df : DataFrame) (ex : exn) :
  cache w = Some df ->
  rows df <> [] ->
  filter_df df date_range = Err ex ->
  script date_range w = (Raised ex, emits (allocates w [df]) (controls_page df)).
Proof.
  intros Hc Hrows Hf.
  destruct (index_bounds_nonempty df Hrows) as (lo & hi & Hlo & Hhi).
  unfold script. unfold bind at 1. rewrite (load_data_cached _ _ Hc).
  unfold allocates, emits, controls_page, filter_step.
  rewrite !Hlo, !Hhi.
  cbv [bind st_emit deref new lift ret raise].
  repeat (cbn [csv_file cache reads heap ui NaT_date option_map];
          first [ rewrite lookup_new | rewrite Hlo | rewrite Hhi | rewrite Hf ];
          cbv beta iota).
  cbn [csv_file cache reads heap ui NaT_date option_map].
  repeat rewrite <- app_assoc. reflexivity.
Qed.

Lemma tab1_run (w : World) (l : loc) (f : DataFrame) :
  nth_error (heap w) l = Some f ->
  tab1 l w
  = match fig1 f with
    | Ok g => (Val tt, emits w [Subheader "BTC & ETH Prices with 30-Day Moving Averages";
                                PlotlyChart g])
    | Err ex => (Raised ex, emits w [Subheader "BTC & ETH Prices with 30-Day Moving Averages"])
    end.
Proof.
  intros Hl. unfold tab1, emits.
  cbv [bind st_emit deref lift]. cbn [csv_file cache reads heap ui].
  rewrite Hl. destruct (fig1 f); cbv [ret raise]; cbn [ui];
    repeat rewrite <- app_assoc; reflexivity.
Qed.

Lemma tab2_run (w : World) (l : loc) (f : DataFrame) :
  nth_error (heap w) l = Some f ->
  tab2 l w
  = match fig2 f with
    | Ok g => (Val tt, emits w [Subheader "30-Day Annualized Volatility – BTC vs ETH";
                                PlotlyChart g])
    | Err ex => (Raised ex, emits w [Subheader "30-Day Annualized Volatility – BTC vs ETH"])
    end.
Proof.
  intros Hl. unfold tab2, emits.
  cbv [bind st_emit deref lift]. cbn [csv_file cache reads heap ui].
  rewrite Hl. destruct (fig2 f); cbv [ret raise]; cbn [ui];
    repeat rewrite <- app_assoc; reflexivity.
Qed.

Lemma tab3_run (w : World) (l : loc) (f : DataFrame) :
  nth_error (heap w) l = Some f ->
  tab3 l w
  = match fig3 f with
    | Ok g => (Val tt, emits w [Subheader "90-Day Rolling Correlation: BTC vs ETH Prices";
                                PlotlyChart g])
    | Err ex => (Raised ex, emits w [Subheader "90-Day Rolling Correlation: BTC vs ETH Prices"])
    end.
Proof.
  intros Hl. unfold tab3, emits.
  cbv [bind st_emit deref lift]. cbn [csv_file cache reads heap ui].
  rewrite Hl. destruct (fig3 f); cbv [ret raise]; cbn [ui];
    repeat rewrite <- app_assoc; reflexivity.
Qed.

Lemma tab4_run (w : World) (l : loc) (f : DataFrame) :
  nth_error (heap w) l = Some f ->
  tab4 l w
  = match fig4 f with
    | Ok g => (Val tt, emits w [Subheader "7-Day Average Daily Volume (Log Scale)";
                                PlotlyChart g])
    | Err ex => (Raised ex, emits w [Subheader "7-Day Average Daily Volume (Log Scale)"])
    end.
Proof.
  intros Hl. unfold tab4, emits.
  cbv [bind st_emit deref lift]. cbn [csv_file cache reads heap ui].
  rewrite Hl. destruct (fig4 f); cbv [ret raise]; cbn [ui];
    repeat rewrite <- app_assoc; reflexivity.
Qed.

Lemma tab5_run (w : World) (l : loc) (f : DataFrame) :
  nth_error (heap w) l = Some f ->
  tab5 l w
  = match recent_table f with
    | Ok t => (Val tt, emits w [Subheader "Recent Data Snapshot (Last 15 Days)";
                                DataFrameView t;
                                DownloadButton "Download Full Dataset (CSV)" (to_csv f)
                                               "btc_eth_metrics_2024_2026.csv" "text/csv"])
    | Err ex => (Raised ex, emits w [Subheader "Recent Data Snapshot (Last 15 Days)"])
    end.
Proof.
  intros Hl. unfold tab5, emits.
  cbv [bind st_emit deref lift]. cbn [csv_file cache reads heap ui].
  rewrite Hl. destruct (recent_table f); cbv [ret raise]; cbn [ui];
    repeat rewrite <- app_assoc; reflexivity.
Qed.

Lemma emits_emits (w : World) (es fs : list Element) :
  emits (emits w es) fs = emits w (es ++ fs).
Proof. unfold emits. cbn. rewrite app_assoc. reflexivity. Qed.

End Failures.

Local Open Scope st_scope.

(** Past the filter the run is the five tabs and the footer, over the
    record set and the slice as the two frames of the run. *)
Lemma script_to_tabs (date_range : list date) (w : World) (df f : DataFrame) :
  cache w = Some df ->
  rows df <> [] ->
  filter_df df date_range = Ok f ->
  script date_range w
  = (tab1 (S (List.length (heap w))) ;;
     tab2 (S (List.length (heap w))) ;;
     tab3 (S (List.length (heap w))) ;;
     tab4 (S (List.length (heap w))) ;;
     tab5 (S (List.length (heap w))) ;;
     st_emit (Markdown "---") ;;
     st_emit (Caption "Built by Aklilu Abera| Data source: Binance (via ccxt), processed in Jupyter"))
      (emits (allocates w [df; f]) (controls_page df ++ [tabs_bar])).
Proof.
  intros Hc Hrows Hf.
  destruct (index_bounds_nonempty df Hrows) as (lo & hi & Hlo & Hhi).
  unfold script. unfold bind at 1. rewrite (load_data_cached _ _ Hc).
  unfold allocates, emits, controls_page, tabs_bar, filter_step.
  rewrite !Hlo, !Hhi.
  cbv [bind st_emit deref new lift ret raise].
  repeat (cbn [csv_file cache reads heap ui NaT_date option_map];
          first [ rewrite lookup_new | rewrite Hlo | rewrite Hhi | rewrite Hf ];
          cbv beta iota).
  cbn [csv_file cache reads heap ui NaT_date option_map].
  rewrite length_app. cbn [List.length]. rewrite Nat.add_1_r.
  cbn [app]. repeat rewrite <- app_assoc. cbn [app]. reflexivity.
Qed.

Local Close Scope st_scope.

Section MissingColumns.

Lemma find_col_found (c : string) (cols : list string) (k : nat) :
  find_col c cols = Some k -> existsb (String.eqb c) cols = true.
Proof.
  revert k; induction cols as [|c' cs IH]; intros k; simpl; [discriminate |].
  destruct (String.eqb c c'); [reflexivity |].
  destruct (find_col c cs) as [k' |]; [| discriminate].
  intros _. exact (IH k' eq_refl).
Qed.

Lemma getitem_found (df : DataFrame) (c : string) (ys : list float) :
  getitem df c = Ok ys -> existsb (String.eqb c) (columns df) = true.
Proof.
  unfold getitem. destruct (find_col c (columns df)) as [k |] eqn:E; [| discriminate].
  intros _. exact (find_col_found _ _ _ E).
Qed.

Lemma getitem_KeyError (df : DataFrame) (c : string) (ex : exn) :
  getitem df c = Err ex -> ex = mkExn KeyError (py_repr c).
Proof.
  unfold getitem. destruct (find_col c (columns df)); [discriminate |].
  intros [= <-]. reflexivity.
Qed.

(** When the four figures are built, the frame has all nine metric columns:
    between them the figures read every column of the table. *)
Lemma figures_read_all_columns (f : DataFrame) (g1 g2 g3 g4 : Figure) :
  fig1 f = Ok g1 -> fig2 f = Ok g2 -> fig3 f = Ok g3 -> fig4 f = Ok g4 ->
  has_columns f = true.
Proof.
  unfold fig1, fig2, fig3, fig4, px_line, rbind.
  destruct (rows f) as [|r rs].
  all: destruct (getitem f "btc_price_usd") eqn:E1; [| discriminate].
  all: destruct (getitem f "btc_price_30d_ma") eqn:E2; [| discriminate].
  all: destruct (getitem f "eth_price_usd") eqn:E3; [| discriminate].
  all: destruct (getitem f "eth_price_30d_ma") eqn:E4; [| discriminate].
  all: destruct (getitem f "btc_vol_30d") eqn:E5; [| discriminate].
  all: destruct (getitem f "eth_vol_30d") eqn:E6; [| discriminate].
  all: destruct (getitem f "btc_eth_price_corr_90d") eqn:E7; [| discriminate].
  all: destruct (getitem f "btc_volume_7d_ma") eqn:E8; [| discriminate].
  all: destruct (getitem f "eth_volume_7d_ma") eqn:E9; [| discriminate].
  all: intros _ _ _ _; unfold has_columns, table_columns; cbn [forallb].
  all: rewrite (getitem_found _ _ _ E1), (getitem_found _ _ _ E2), (getitem_found _ _ _ E3),
    (getitem_found _ _ _ E4), (getitem_found _ _ _ E5), (getitem_found _ _ _ E6),
    (getitem_found _ _ _ E7), (getitem_found _ _ _ E8), (getitem_found _ _ _ E9).
  all: reflexivity.
Qed.

Lemma fig1_raises_KeyError (f : DataFrame) (ex : exn) :
  fig1 f = Err ex -> cls ex = KeyError.
Proof.
  unfold fig1, rbind.
  repeat match goal with
         | |- context [getitem f ?c] =>
             let E := fresh "E" in
             destruct (getitem f c) eqn:E;
             [| apply getitem_KeyError in E; intros [= <-]; rewrite E; reflexivity]
         end.
  discriminate.
Qed.

Lemma fig2_raises_KeyError (f : DataFrame) (ex : exn) :
  fig2 f = Err ex -> cls ex = KeyError.
Proof.
  unfold fig2, rbind.
  repeat match goal with
         | |- context [getitem f ?c] =>
             let E := fresh "E" in
             destruct (getitem f c) eqn:E;
             [| apply getitem_KeyError in E; intros [= <-]; rewrite E; reflexivity]
         end.
  discriminate.
Qed.

Lemma fig3_raises_ValueError (f : DataFrame) (ex : exn) :
  fig3 f = Err ex -> cls ex = ValueError.
Proof.
  unfold fig3, px_line, rbind.
  destruct (getitem f "btc_eth_price_corr_90d");
    [destruct (rows f); discriminate |].
  intros [= <-]. reflexivity.
Qed.

Lemma fig4_raises_KeyError (f : DataFrame) (ex : exn) :
  fig4 f = Err ex -> cls ex = KeyError.
Proof.
  unfold fig4, rbind.
  repeat match goal with
         | |- context [getitem f ?c] =>
             let E := fresh "E" in
             destruct (getitem f c) eqn:E;
             [| apply getitem_KeyError in E; intros [= <-]; rewrite E; reflexivity]
         end.
  discriminate.
Qed.

End MissingColumns.

Section PageOutcome.

Variables (w : World) (df f : DataFrame) (date_range : list date).
Hypothesis Hcache : cache w = Some df.
Hypothesis Hrows : rows df <> [].
Hypothesis Hfilter : filter_df df date_range = Ok f.

Lemma slice_frame_lookup (es : list Element) :
  nth_error (heap (emits (allocates w [df; f]) es)) (S (List.length (heap w))) = Some f.
Proof.
  cbn [heap emits allocates].
  rewrite nth_error_app2 by lia.
  replace (S (List.length (heap w)) - List.length (heap w))%nat with 1%nat by lia.
  reflexivity.
Qed.

Lemma slice_has_columns : has_columns f = has_columns df.
Proof. apply has_columns_same. exact (filter_df_columns _ _ _ Hfilter). Qed.

(** The outcome of a run past the filter: the whole page, or an exception
    of the first builder that misses a column, with the page up to that
    builder's heading. *)
Lemma page_outcome :
  (has_columns df = true /\
   exists g1 g2 g3 g4 t,
     script date_range w
     = (Val tt, emits (allocates w [df; f]) (page df f g1 g2 g3 g4 t))) \/
  (has_columns df = false /\
   exists ex added,
     script date_range w = (Raised ex, emits (allocates w [df; f]) added) /\
     (cls ex = KeyError \/ cls ex = ValueError) /\
     forallb (fun el => negb (is_table_or_download el)) added = true).
Proof.
  destruct (has_columns df) eqn:Hcols.
  - left. split; [reflexivity |].
    assert (Hcols' : has_columns f = true) by (rewrite slice_has_columns; exact Hcols).
    destruct (fig1_ok _ Hcols') as (g1 & H1 & _).
    destruct (fig2_ok _ Hcols') as (g2 & H2 & _).
    destruct (fig3_ok _ Hcols') as (g3 & H3 & _).
    destruct (fig4_ok _ Hcols') as (g4 & H4 & _).
    pose proof (recent_ok _ Hcols') as Hrecent.
    assert (Ht : exists t, recent_table f = Ok t)
      by (eexists; unfold recent_table; rewrite Hrecent; reflexivity).
    destruct Ht as (t & Ht).
    exists g1, g2, g3, g4, t.
    apply script_renders; assumption.
  - right. split; [reflexivity |].
    assert (Hcols' : has_columns f = false) by (rewrite slice_has_columns; exact Hcols).
    rewrite (script_to_tabs _ _ _ _ Hcache Hrows Hfilter).
    unfold bind at 1.
    rewrite (tab1_run _ _ f (slice_frame_lookup _)).
    destruct (fig1 f) as [g1 | ex] eqn:E1;
      [| exists ex; eexists; rewrite emits_emits; split; [reflexivity |];
         split; [left; exact (fig1_raises_KeyError _ _ E1) | reflexivity]].
    unfold bind at 1. rewrite emits_emits.
    rewrite (tab2_run _ _ f (slice_frame_lookup _)).
    destruct (fig2 f) as [g2 | ex] eqn:E2;
      [| exists ex; eexists; rewrite emits_emits; split; [reflexivity |];
         split; [left; exact (fig2_raises_KeyError _ _ E2) | reflexivity]].
    unfold bind at 1. rewrite emits_emits.
    rewrite (tab3_run _ _ f (slice_frame_lookup _)).
    destruct (fig3 f) as [g3 | ex] eqn:E3;
      [| exists ex; eexists; rewrite emits_emits; split; [reflexivity |];
         split; [right; exact (fig3_raises_ValueError _ _ E3) | reflexivity]].
    unfold bind at 1. rewrite emits_emits.
    rewrite (tab4_run _ _ f (slice_frame_lookup _)).
    destruct (fig4 f) as [g4 | ex] eqn:E4;
      [| exists ex; eexists; rewrite emits_emits; split; [reflexivity |];
         split; [left; exact (fig4_raises_KeyError _ _ E4) | reflexivity]].
    rewrite (figures_read_all_columns _ _ _ _ _ E1 E2 E3 E4) in Hcols'.
    discriminate.
Qed.

End PageOutcome.

(** With a non-empty record set memoised and a filter that does not raise,
    the run completes exactly when the record set has the nine metric
    columns.  When one is missing the run ends in an uncaught KeyError
    (ValueError from the correlation chart), and neither the table nor the
    download button is rendered: the table is never the first builder to
    fail. *)
Theorem page_completes_iff_columns (w : World) (df f : DataFrame)
        (date_range : list date) :
  cache w = Some df ->
  rows df <> [] ->
  filter_df df date_range = Ok f ->
  (fst (script date_range w) = Val tt <-> has_columns df = true) /\
  (has_columns df = false ->
   exists ex added,
     script date_range w = (Raised ex, emits (allocates w [df; f]) added) /\
     (cls ex = KeyError \/ cls ex = ValueError) /\
     forallb (fun el => negb (is_table_or_download el)) added = true).
Proof.
  intros Hc Hrows Hf.
  destruct (page_outcome w df f date_range Hc Hrows Hf)
    as [[Hcols (g1 & g2 & g3 & g4 & t & Hrun)] | [Hcols (ex & added & Hrun & Hrest)]].
  - split.
    + rewrite Hrun. split; [intros _; exact Hcols | reflexivity].
    + rewrite Hcols. discriminate.
  - split.
    + rewrite Hrun, Hcols. split; discriminate.
    + intros _. exists ex, added. split; [exact Hrun | exact Hrest].
Qed.

Lemma page_completes_iff_columns_witness :
  (fst (script [] (mkWorld (Ok no_volatility_df) (Some no_volatility_df) 1 [] []))
   = Val tt <-> has_columns no_volatility_df = true) /\
  (has_columns no_volatility_df = false ->
   exists ex added,
     script [] (mkWorld (Ok no_volatility_df) (Some no_volatility_df) 1 [] [])
     = (Raised ex,
        emits (allocates (mkWorld (Ok no_volatility_df) (Some no_volatility_df) 1 [] [])
                         [no_volatility_df; no_volatility_df])
              added) /\
     (cls ex = KeyError \/ cls ex = ValueError) /\
     forallb (fun el => negb (is_table_or_download el)) added = true).
Proof.
  apply (page_completes_iff_columns
           (mkWorld (Ok no_volatility_df) (Some no_volatility_df) 1 [] [])
           no_volatility_df no_volatility_df []);
    [reflexivity | discriminate | reflexivity].
Defined.

(** On an index that is neither ascending nor descending, a selection with
    a bound that is no key of the index makes the filter raise KeyError; the
    run ends there, with the page rendered down to the date picker only. *)
Theorem unsorted_index_missing_bound_raises (w : World) (df : DataFrame)
        (start_date end_date : date) :
  is_monotonic_increasing (index df) = false ->
  is_monotonic_decreasing (index df) = false ->
  ~ In (Timestamp_of_date start_date) (index df) \/
  ~ In (Timestamp_of_date end_date) (index df) ->
  exists ex,
    filter_df df [start_date; end_date] = Err ex /\
    cls ex = KeyError /\
    (cache w = Some df ->
     script [start_date; end_date] w
     = (Raised ex, emits (allocates w [df]) (controls_page df))).
Proof.
  intros Hinc Hdec Habs.
  assert (Herr : exists ex, filter_df df [start_date; end_date] = Err ex /\
                            cls ex = KeyError).
  { simpl. unfold loc_slice, rbind.
    destruct (get_slice_bound (index df) start_date Left) as [i | ex] eqn:Ei.
    - destruct Habs as [Habs | Habs].
      + pose proof (get_slice_bound_absent _ _ Left Hinc Hdec Habs) as Hex.
        congruence.
      + pose proof (get_slice_bound_absent _ _ Right Hinc Hdec Habs) as Hex.
        rewrite Hex. eexists. split; reflexivity.
    - exists ex. split; [reflexivity |].
      exact (get_slice_bound_KeyError _ _ _ _ Ei). }
  destruct Herr as (ex & Hex & Hcls). exists ex.
  split; [exact Hex |]. split; [exact Hcls |].
  intros Hc. apply script_filter_raises; try assumption.
  intros Hempty. unfold index in Hinc. rewrite Hempty in Hinc. discriminate.
Qed.

Lemma unsorted_index_missing_bound_raises_witness :
  exists ex,
    filter_df unsorted_df [_ymd2ord 2026 1 5; _ymd2ord 2026 2 1] = Err ex /\
    cls ex = KeyError /\
    (cache (mkWorld (Ok unsorted_df) (Some unsorted_df) 1 [] []) = Some unsorted_df ->
     script [_ymd2ord 2026 1 5; _ymd2ord 2026 2 1]
            (mkWorld (Ok unsorted_df) (Some unsorted_df) 1 [] [])
     = (Raised ex,
        emits (allocates (mkWorld (Ok unsorted_df) (Some unsorted_df) 1 [] [])
                         [unsorted_df])
              (controls_page unsorted_df))).
Proof.
  apply (unsorted_index_missing_bound_raises
           (mkWorld (Ok unsorted_df) (Some unsorted_df) 1 [] []) unsorted_df);
    [reflexivity | reflexivity |].
  left. vm_compute. intros [H | [H | [H | []]]]; discriminate H.
Defined.

(** ** The memo across reruns (lines 20-37) *)

Section Reruns.

Lemma script_load_fails (date_range : list date) (w : World) (ex : exn) :
  cache w = None -> csv_file w = Err ex ->
  script date_range w
  = (Stopped,
     mkWorld (csv_file w) None (S (reads w)) (heap w)
             (ui w ++ [ErrorBox (load_error_message ex)])).
Proof.
  intros Hc Hf.
  unfold script, load_data, cache_data, try_except, read_csv, load_error_message.
  unfold bind at 1. rewrite Hc, Hf.
  destruct (cls ex); reflexivity.
Qed.

Lemma rerun_load_fails (w : World) (date_range : list date) (ex : exn) :
  cache w = None -> csv_file w = Err ex ->
  rerun w date_range
  = mkWorld (Err ex) None (S (reads w)) [] [ErrorBox (load_error_message ex)].
Proof.
  intros Hc Hf. unfold rerun.
  rewrite (script_load_fails _ _ ex); [| exact Hc | exact Hf].
  cbn [snd csv_file reads heap ui app]. rewrite Hf. reflexivity.
Qed.

Lemma rerun_first_load (w : World) (date_range : list date) (df0 : DataFrame) :
  cache w = None -> csv_file w = Ok df0 ->
  cache (rerun w date_range) = Some df0 /\
  csv_file (rerun w date_range) = csv_file w /\
  reads (rerun w date_range) = S (reads w).
Proof.
  intros Hc Hf. unfold rerun.
  set (w0 := mkWorld (csv_file w) (cache w) (reads w) [] []).
  pose proof (script_after_load date_range w0 _ _ (load_data_first w0 df0 Hc Hf))
    as (H1 & H2 & H3 & _).
  subst w0. cbn [csv_file cache reads] in H1, H2, H3. repeat split; assumption.
Qed.

Lemma rerun_cached (w : World) (date_range : list date) (df0 : DataFrame) :
  cache w = Some df0 ->
  cache (rerun w date_range) = Some df0 /\
  csv_file (rerun w date_range) = csv_file w /\
  reads (rerun w date_range) = reads w.
Proof.
  intros Hc. unfold rerun.
  set (w0 := mkWorld (csv_file w) (cache w) (reads w) [] []).
  pose proof (script_after_load date_range w0 _ _ (load_data_cached w0 df0 Hc))
    as (H1 & H2 & H3 & _).
  unfold allocates in H1, H2, H3. subst w0.
  cbn [csv_file cache reads] in H1, H2, H3.
  repeat split; congruence.
Qed.

Lemma session_cached (interactions : list (list date)) (w : World) (df0 : DataFrame) :
  cache w = Some df0 ->
  cache (session w interactions) = Some df0 /\
  reads (session w interactions) = reads w.
Proof.
  revert w; induction interactions as [|i rest IH]; intros w Hc;
    [split; [exact Hc | reflexivity] |].
  destruct (rerun_cached w i df0 Hc) as (H1 & _ & H3).
  simpl. destruct (IH _ H1) as [H4 H5]. split; congruence.
Qed.

End Reruns.

(** A session whose first load succeeds reads the data file exactly once,
    however many reruns follow; every later run is served from the memo. *)
Theorem session_reads_file_once (w : World) (df0 : DataFrame)
        (first : list date) (interactions : list (list date)) :
  cache w = None ->
  csv_file w = Ok df0 ->
  reads (session w (first :: interactions)) = S (reads w) /\
  cache (session w (first :: interactions)) = Some df0.
Proof.
  intros Hc Hf.
  destruct (rerun_first_load w first df0 Hc Hf) as (H1 & _ & H3).
  simpl. destruct (session_cached interactions _ df0 H1) as [H4 H5].
  split; congruence.
Qed.

Lemma session_reads_file_once_witness :
  reads (session (mkWorld (Ok sample_df) None 0 [] [])
                 [[]; [_ymd2ord 2026 2 10; _ymd2ord 2026 2 11]; [_ymd2ord 2026 2 12]])
  = 1%nat /\
  cache (session (mkWorld (Ok sample_df) None 0 [] [])
                 [[]; [_ymd2ord 2026 2 10; _ymd2ord 2026 2 11]; [_ymd2ord 2026 2 12]])
  = Some sample_df.
Proof.
  apply (session_reads_file_once (mkWorld (Ok sample_df) None 0 [] []) sample_df);
    reflexivity.
Defined.

(** A failed load is not memoised: as long as the data file fails to load,
    every rerun reads it again, shows the error box alone and stops. *)
Theorem failed_load_is_retried (w : World) (ex : exn) (interactions : list (list date)) :
  cache w = None ->
  csv_file w = Err ex ->
  cache (session w interactions) = None /\
  reads (session w interactions) = (reads w + List.length interactions)%nat /\
  (interactions <> [] ->
   ui (session w interactions) = [ErrorBox (load_error_message ex)]).
Proof.
  revert w; induction interactions as [|i rest IH]; intros w Hc Hf.
  - simpl. repeat split; [exact Hc | lia | congruence].
  - simpl. rewrite (rerun_load_fails w i ex Hc Hf).
    set (w1 := mkWorld (Err ex) None (S (reads w)) [] [ErrorBox (load_error_message ex)]).
    destruct (IH w1 eq_refl eq_refl) as (H1 & H2 & H3).
    split; [exact H1 |]. split; [rewrite H2; simpl; lia |].
    intros _. destruct rest as [|j rest']; [reflexivity |].
    apply H3. discriminate.
Qed.

Lemma failed_load_is_retried_witness :
  cache (session (mkWorld (Err (mkExn FileNotFoundError "missing")) None 0 [] [])
                 [[]; []]) = None /\
  reads (session (mkWorld (Err (mkExn FileNotFoundError "missing")) None 0 [] [])
                 [[]; []]) = (0 + 2)%nat /\
  ([[]; []] <> ([] : list (list date)) ->
   ui (session (mkWorld (Err (mkExn FileNotFoundError "missing")) None 0 [] [])
               [[]; []])
   = [ErrorBox (load_error_message (mkExn FileNotFoundError "missing"))]).
Proof.
  apply (failed_load_is_retried
           (mkWorld (Err (mkExn FileNotFoundError "missing")) None 0 [] [])
           (mkExn FileNotFoundError "missing") [[]; []]);
    reflexivity.
Defined.

(** ** After the load the file is never looked at *)

Section FileBlind.

Lemma file_blind_ret {A} (a : A) : file_blind (ret a).
Proof. intros w file. reflexivity. Qed.

Lemma file_blind_raise {A} (ex : exn) : file_blind (@raise A ex).
Proof. intros w file. reflexivity. Qed.

Lemma file_blind_lift {A} (r : result A) : file_blind (lift r).
Proof. destruct r; [apply file_blind_ret | apply file_blind_raise]. Qed.

Lemma file_blind_bind {A B} (m : M A) (k : A -> M B) :
  file_blind m -> (forall a, file_blind (k a)) -> file_blind (bind m k).
Proof.
  intros Hm Hk w file. unfold bind. rewrite (Hm w file).
  destruct (m w) as [[a | | ex] w1]; cbn [fst snd]; try reflexivity.
  apply Hk.
Qed.

Lemma file_blind_st_emit (el : Element) : file_blind (st_emit el).
Proof. intros w file. reflexivity. Qed.

Lemma file_blind_new (v : DataFrame) : file_blind (new v).
Proof. intros w file. reflexivity. Qed.

Lemma file_blind_deref (l : loc) : file_blind (deref l).
Proof.
  intros w file. unfold deref. cbn [heap with_file].
  destruct (nth_error (heap w) l); reflexivity.
Qed.

End FileBlind.

#[local] Hint Resolve file_blind_ret file_blind_raise file_blind_lift file_blind_bind
  file_blind_st_emit file_blind_new file_blind_deref : frame.

(** Once the record set is memoised, a run is the same whatever has happened
    to the data file since: changed or deleted, the file has no effect on the
    outcome, the page or the frames of the run. *)
Theorem memo_shields_from_file (w : World) (df : DataFrame)
        (file : result DataFrame) (date_range : list date) :
  cache w = Some df ->
  script date_range (with_file w file)
  = (fst (script date_range w), with_file (snd (script date_range w)) file).
Proof.
  intros Hc. unfold script.
  match goal with
  | |- context [bind load_data ?k] => set (rest := k)
  end.
  assert (Hblind : forall l, file_blind (rest l)).
  { intros l. subst rest. cbv beta.
    unfold filter_step, tab1, tab2, tab3, tab4, tab5. auto 60 with frame. }
  unfold bind.
  rewrite (load_data_cached w df Hc).
  rewrite (load_data_cached (with_file w file) df Hc).
  change (allocates (with_file w file) [df]) with (with_file (allocates w [df]) file).
  apply Hblind.
Qed.

Lemma memo_shields_from_file_witness :
  script [_ymd2ord 2026 2 10; _ymd2ord 2026 2 11]
         (with_file sample_world (Err (mkExn FileNotFoundError "gone")))
  = (fst (script [_ymd2ord 2026 2 10; _ymd2ord 2026 2 11] sample_world),
     with_file (snd (script [_ymd2ord 2026 2 10; _ymd2ord 2026 2 11] sample_world))
               (Err (mkExn FileNotFoundError "gone"))).
Proof.
  apply (memo_shields_from_file sample_world sample_df). reflexivity.
Defined.

(** Over a memoised valid, non-empty record set no selection makes the run
    raise or stop: for every tuple the picker can return, the filter yields
    a slice and the rerun renders the whole page, the four charts, the table
    and the download of that slice. *)
Theorem valid_session_renders_full_page (w : World) (df : DataFrame)
        (date_range : list date) :
  cache w = Some df ->
  valid_record_set df = true ->
  rows df <> [] ->
  exists filtered_df g1 g2 g3 g4 t,
    filter_df df date_range = Ok filtered_df /\
    fst (script date_range w) = Val tt /\
    ui (rerun w date_range) = page df filtered_df g1 g2 g3 g4 t /\
    List.length (filter is_chart (ui (rerun w date_range))) = 4%nat /\
    List.length (filter is_table_or_download (ui (rerun w date_range))) = 2%nat /\
    filter is_error_box (ui (rerun w date_range)) = [].
Proof.
  intros Hc Hvalid Hrows.
  destruct (valid_record_set_parts _ Hvalid) as (Hmono & _ & _).
  destruct (filter_df_total_on_ascending df date_range Hmono) as (f & Hf).
  destruct (valid_record_set_parts _ (valid_slice _ _ _ Hvalid Hf)) as (_ & _ & Hcols).
  destruct (fig1_ok _ Hcols) as (g1 & H1 & _).
  destruct (fig2_ok _ Hcols) as (g2 & H2 & _).
  destruct (fig3_ok _ Hcols) as (g3 & H3 & _).
  destruct (fig4_ok _ Hcols) as (g4 & H4 & _).
  pose proof (recent_ok _ Hcols) as Hrecent.
  assert (Ht : exists t, recent_table f = Ok t)
    by (eexists; unfold recent_table; rewrite Hrecent; reflexivity).
  destruct Ht as (t & Ht).
  exists f, g1, g2, g3, g4, t.
  split; [exact Hf |].
  split; [rewrite (script_renders _ _ _ _ _ _ _ _ _ Hc Hrows Hf H1 H2 H3 H4 Ht);
          reflexivity |].
  assert (Hui : ui (rerun w date_range) = page df f g1 g2 g3 g4 t).
  { unfold rerun.
    rewrite (script_renders date_range _ df f g1 g2 g3 g4 t); try assumption.
    reflexivity. }
  rewrite Hui. repeat split; reflexivity.
Qed.

Lemma valid_session_renders_full_page_witness :
  exists filtered_df g1 g2 g3 g4 t,
    filter_df sample_df [_ymd2ord 2026 2 11] = Ok filtered_df /\
    fst (script [_ymd2ord 2026 2 11] sample_world) = Val tt /\
    ui (rerun sample_world [_ymd2ord 2026 2 11])
    = page sample_df filtered_df g1 g2 g3 g4 t /\
    List.length (filter is_chart (ui (rerun sample_world [_ymd2ord 2026 2 11]))) = 4%nat /\
    List.length (filter is_table_or_download
                        (ui (rerun sample_world [_ymd2ord 2026 2 11]))) = 2%nat /\
    filter is_error_box (ui (rerun sample_world [_ymd2ord 2026 2 11])) = [].
Proof.
  apply (valid_session_renders_full_page sample_world sample_df);
    [reflexivity | vm_compute; reflexivity | discriminate].
Defined.

(** ** What the charts plot (lines 85-214) *)

Section ChartContent.

Lemma ascending_min_is_head (t : Timestamp) (ts : list Timestamp) :
  is_monotonic_increasing (t :: ts) = true -> index_min (t :: ts) = Some t.
Proof.
  intros Hmono. destruct (monotonic_cons _ _ Hmono) as [Hall _].
  destruct (fold_min_spec ts t) as [Hin Hle].
  simpl. f_equal.
  inversion Hle as [|? ? Hhead _]; subst.
  destruct Hin as [Hin | Hin]; [symmetry; exact Hin |].
  rewrite Forall_forall in Hall. specialize (Hall _ Hin). lia.
Qed.

Lemma last_cons_default {A} (b : A) (l : list A) (d : A) :
  last (b :: l) d = last l b.
Proof.
  revert b d; induction l as [|c l IH]; intros b d; [reflexivity |].
  change (last (b :: c :: l) d) with (last (c :: l) d).
  rewrite (IH c d), (IH c b). reflexivity.
Qed.

Lemma ascending_max_is_last (t : Timestamp) (ts : list Timestamp) :
  is_monotonic_increasing (t :: ts) = true -> index_max (t :: ts) = Some (last ts t).
Proof.
  intros Hmono. simpl. f_equal.
  revert t Hmono; induction ts as [|b ts IH]; intros t Hmono; [reflexivity |].
  destruct (monotonic_cons _ _ Hmono) as [Hall Hrest].
  inversion Hall as [|? ? Hb _]; subst.
  simpl fold_left. rewrite Z.max_r by lia.
  rewrite (IH b Hrest). symmetry. apply last_cons_default.
Qed.

Lemma last_map_key (rs : list Row) (r : Row) :
  last (map key rs) (key r) = key (last rs r).
Proof.
  induction rs as [|b rs IH]; [reflexivity |].
  destruct rs as [|c rs]; [reflexivity |]. exact IH.
Qed.

End ChartContent.

(** Each chart plots the slice and nothing else: every trace has the
    slice's keys, in order, as abscissae and the values of one metric column
    as ordinates, so one point per record.  The price chart puts the two BTC
    series on the primary axis and the two ETH series on the secondary one.
    The correlation chart has one trace, a solid purple line of width 3,
    over a slice with records and no trace over an empty slice. *)
Theorem charts_plot_the_slice (filtered_df : DataFrame) :
  has_columns filtered_df = true ->
  exists g1 g2 g3 g4,
    fig1 filtered_df = Ok g1 /\ fig2 filtered_df = Ok g2 /\
    fig3 filtered_df = Ok g3 /\ fig4 filtered_df = Ok g4 /\
    Forall (fun t => x t = index filtered_df /\
                     List.length (y t) = List.length (x t))
           (data g1 ++ data g2 ++ data g3 ++ data g4) /\
    map y (data g1)
    = map (column_values filtered_df)
          [ "btc_price_usd"; "btc_price_30d_ma";
            "eth_price_usd"; "eth_price_30d_ma" ]%string /\
    map secondary_y (data g1) = [false; false; true; true] /\
    map y (data g2)
    = map (column_values filtered_df) [ "btc_vol_30d"; "eth_vol_30d" ]%string /\
    map y (data g3)
    = match rows filtered_df with
      | [] => []
      | _ :: _ => [ column_values filtered_df "btc_eth_price_corr_90d" ]
      end /\
    map line (data g3)
    = match rows filtered_df with
      | [] => []
      | _ :: _ => [ mkLine "purple" (Some 3) (Some "solid"%string) ]
      end /\
    map y (data g4)
    = map (column_values filtered_df)
          [ "btc_volume_7d_ma"; "eth_volume_7d_ma" ]%string.
Proof.
  intros Hcols.
  unfold fig1, fig2, fig3, fig4, px_line, update_traces, column_values, cell.
  cbn [map]. metric_columns Hcols. cbn [rbind].
  assert (Hlen : forall k : nat,
             List.length (map (fun r : Row => nth k (cells r) nan) (rows filtered_df))
             = List.length (index filtered_df))
    by (intros; unfold index; rewrite !length_map; reflexivity).
  destruct (rows filtered_df) as [|r rs] eqn:Hrows; cbn [rbind].
  - do 4 eexists. do 4 (split; [reflexivity |]).
    cbn [data map app x y secondary_y line].
    split; [| repeat split; reflexivity].
    repeat constructor; cbn [x y]; unfold index; rewrite Hrows; reflexivity.
  - do 4 eexists. do 4 (split; [reflexivity |]).
    cbn [data map app x y secondary_y line].
    split; [| repeat split; reflexivity].
    repeat constructor; cbn [x y]; apply Hlen.
Qed.

Lemma charts_plot_the_slice_witness :
  exists g1 g2 g3 g4,
    fig1 sample_df = Ok g1 /\ fig2 sample_df = Ok g2 /\
    fig3 sample_df = Ok g3 /\ fig4 sample_df = Ok g4 /\
    Forall (fun t => x t = index sample_df /\
                     List.length (y t) = List.length (x t))
           (data g1 ++ data g2 ++ data g3 ++ data g4) /\
    map y (data g1)
    = map (column_values sample_df)
          [ "btc_price_usd"; "btc_price_30d_ma";
            "eth_price_usd"; "eth_price_30d_ma" ]%string /\
    map secondary_y (data g1) = [false; false; true; true] /\
    map y (data g2)
    = map (column_values sample_df) [ "btc_vol_30d"; "eth_vol_30d" ]%string /\
    map y (data g3) = [ column_values sample_df "btc_eth_price_corr_90d" ] /\
    map line (data g3) = [ mkLine "purple" (Some 3) (Some "solid"%string) ] /\
    map y (data g4)
    = map (column_values sample_df)
          [ "btc_volume_7d_ma"; "eth_volume_7d_ma" ]%string.
Proof.
  apply (charts_plot_the_slice sample_df). vm_compute. reflexivity.
Defined.

(** The correlation chart is fixed to the range [-1, 1] and carries one
    shape, the zero line; on an ascending slice the line runs from the key
    of the first record to the key of the last, and on an empty slice both
    of its ends are NaT. *)
Theorem correlation_zero_line (filtered_df : DataFrame) :
  has_columns filtered_df = true ->
  is_monotonic_increasing (index filtered_df) = true ->
  exists g3 zero_line,
    fig3 filtered_df = Ok g3 /\
    yaxis_range (layout g3) = Some (-1, 1) /\
    shapes g3 = [zero_line] /\
    shape_type zero_line = "line"%string /\
    y0 zero_line = CNum 0 /\ y1 zero_line = CNum 0 /\
    match rows filtered_df with
    | [] => x0 zero_line = CTime None /\ x1 zero_line = CTime None
    | r :: rs =>
        x0 zero_line = CTime (Some (key r)) /\
        x1 zero_line = CTime (Some (key (last rs r)))
    end.
Proof.
  intros Hcols Hmono.
  unfold fig3, px_line. metric_columns Hcols.
  unfold index in *. destruct (rows filtered_df) as [|r rs]; cbn [rbind].
  - do 2 eexists. split; [reflexivity |].
    cbn [layout yaxis_range shapes shape_type x0 x1 y0 y1].
    repeat split; reflexivity.
  - do 2 eexists. split; [reflexivity |].
    cbn [layout yaxis_range shapes shape_type x0 x1 y0 y1].
    do 5 (split; [reflexivity |]).
    change (map key (r :: rs)) with (key r :: map key rs) in *.
    rewrite (ascending_min_is_head _ _ Hmono), (ascending_max_is_last _ _ Hmono).
    split; [reflexivity |]. rewrite last_map_key. reflexivity.
Qed.

Lemma correlation_zero_line_witness :
  exists g3 zero_line,
    fig3 sample_df = Ok g3 /\
    yaxis_range (layout g3) = Some (-1, 1) /\
    shapes g3 = [zero_line] /\
    shape_type zero_line = "line"%string /\
    y0 zero_line = CNum 0 /\ y1 zero_line = CNum 0 /\
    x0 zero_line = CTime (Some (to_datetime 2026 2 10)) /\
    x1 zero_line = CTime (Some (to_datetime 2026 2 12)).
Proof.
  destruct (correlation_zero_line sample_df) as (g3 & zl & H);
    [vm_compute; reflexivity | vm_compute; reflexivity |].
  exists g3, zl. exact H.
Defined.

(** ** The table builder (lines 224-240) *)

Section TableBuilder.

Lemma missing_labels_empty (cs cols : list string) :
  missing_labels cs cols = [] ->
  forallb (fun c => existsb (String.eqb c) cols) cs = true.
Proof.
  unfold missing_labels. induction cs as [|c cs IH]; [reflexivity |].
  simpl. destruct (existsb (String.eqb c) cols); simpl; [exact IH | discriminate].
Qed.

Lemma missing_labels_spec (cs cols : list string) (c : string) :
  In c (missing_labels cs cols) <-> In c cs /\ find_col c cols = None.
Proof.
  unfold missing_labels. rewrite filter_In, negb_true_iff.
  split; intros [Hin H]; (split; [exact Hin |]).
  - destruct (find_col c cols) as [k |] eqn:E; [| reflexivity].
    rewrite (find_col_found _ _ _ E) in H. discriminate.
  - destruct (existsb (String.eqb c) cols) eqn:E; [| reflexivity].
    destruct (find_col_present _ _ E) as (k & Hk). congruence.
Qed.

Lemma filter_whole {A} (p : A -> bool) (l : list A) :
  List.length (filter p l) = List.length l -> filter p l = l.
Proof.
  intros H. apply filter_everything, Forall_forall.
  apply forallb_forall. exact (filter_length_forallb p l H).
Qed.

Lemma recent_table_cases (f : DataFrame) :
  recent_table f
  = match missing_labels table_columns (columns f) with
    | [] =>
        Ok (mkStyler
              (mkDF table_columns
                    (map (table_row f) (skipn (List.length (rows f) - 15) (rows f))))
              table_formats)
    | c :: cs =>
        Err (mkExn KeyError
                   (py_repr_message (not_in_index table_columns (c :: cs))))
    end.
Proof.
  destruct (missing_labels table_columns (columns f)) as [|c cs] eqn:E.
  - pose proof (recent_ok f (missing_labels_empty _ _ E)) as Hrecent.
    unfold recent_table. rewrite Hrecent. reflexivity.
  - unfold recent_table, recent, getitem_list, rbind. cbn [columns tail].
    rewrite E. reflexivity.
Qed.

Lemma recent_table_ok_columns (f : DataFrame) (t : Styler) :
  recent_table f = Ok t -> has_columns f = true.
Proof.
  rewrite recent_table_cases.
  destruct (missing_labels table_columns (columns f)) as [|c cs] eqn:E;
    [| discriminate].
  intros _. exact (missing_labels_empty _ _ E).
Qed.

End TableBuilder.

(** The table is built exactly when the slice has all nine selected columns.
    Otherwise the builder raises one KeyError for all the columns that the
    slice lacks: its text lists them, in table order, followed by
    [not in index] (when the slice has none of the nine, the text names the
    whole selection instead). *)
Theorem recent_table_needs_all_columns (filtered_df : DataFrame) :
  (has_columns filtered_df = true <-> exists t, recent_table filtered_df = Ok t) /\
  (forall ex,
     recent_table filtered_df = Err ex ->
     has_columns filtered_df = false /\
     cls ex = KeyError /\
     exists missing,
       missing <> [] /\
       missing
       = filter (fun c => negb (existsb (String.eqb c) (columns filtered_df)))
                table_columns /\
       (forall c, In c missing <->
                  In c table_columns /\ find_col c (columns filtered_df) = None) /\
       (text ex
        = py_repr_message (String.append (py_repr_list missing) " not in index")
        \/ missing = table_columns)).
Proof.
  rewrite recent_table_cases.
  destruct (missing_labels table_columns (columns filtered_df)) as [|c cs] eqn:E.
  - split; [| discriminate].
    split; [intros _; eexists; reflexivity |].
    intros _. exact (missing_labels_empty _ _ E).
  - assert (Hno : has_columns filtered_df = false).
    { destruct (has_columns filtered_df) eqn:Hc; [| reflexivity].
      rewrite (missing_labels_none _ _ Hc) in E. discriminate. }
    split.
    + rewrite Hno. split; [discriminate | intros (t & Ht); discriminate].
    + intros ex [= <-]. split; [exact Hno |]. split; [reflexivity |].
      exists (c :: cs). split; [discriminate |].
      split; [symmetry; exact E |].
      split; [intros c'; rewrite <- E; apply missing_labels_spec |].
      cbn [text]. unfold not_in_index.
      destruct (Nat.eqb (List.length (c :: cs)) (List.length table_columns)) eqn:El;
        [right | left; reflexivity].
      apply Nat.eqb_eq in El. rewrite <- E in El |- *.
      exact (filter_whole _ _ El).
Qed.

Lemma recent_table_needs_all_columns_witness :
  has_columns no_volatility_df = false /\
  exists ex,
    recent_table no_volatility_df = Err ex /\
    cls ex = KeyError /\
    text ex = py_repr_message "['btc_vol_30d', 'eth_vol_30d'] not in index".
Proof.
  destruct (recent_table no_volatility_df) as [t | ex] eqn:E.
  - vm_compute in E. discriminate.
  - destruct (proj2 (recent_table_needs_all_columns no_volatility_df) ex E)
      as (Hno & Hcls & missing & _ & Hm & _ & Ht).
    split; [exact Hno |]. exists ex.
    split; [reflexivity |]. split; [exact Hcls |].
    destruct Ht as [Ht | Ht].
    + rewrite Ht, Hm. vm_compute. reflexivity.
    + rewrite Hm in Ht. vm_compute in Ht. discriminate.
Defined.

(** The table shows at most fifteen rows, and on an ascending index every
    one of them is a record of the loaded set dated within the selected
    (start, end), ends included. *)
Theorem table_rows_within_selection (df filtered_df : DataFrame)
        (start_date end_date : date) (t : Styler) :
  is_monotonic_increasing (index df) = true ->
  filter_df df [start_date; end_date] = Ok filtered_df ->
  recent_table filtered_df = Ok t ->
  (List.length (rows (styled t)) <= 15)%nat /\
  forall k, In k (index (styled t)) ->
            In k (index df) /\
            Timestamp_of_date start_date <= k <= Timestamp_of_date end_date.
Proof.
  intros Hmono Hf Ht.
  pose proof (recent_table_ok_columns _ _ Ht) as Hcols.
  pose proof (recent_ok _ Hcols) as Hrecent.
  unfold recent_table in Ht. rewrite Hrecent in Ht. cbn [rbind] in Ht.
  injection Ht as <-. cbn [styled rows].
  split; [rewrite length_map, length_skipn; lia |].
  intros k Hk. unfold index in Hk. cbn [rows] in Hk.
  rewrite map_map in Hk. cbn [table_row key] in Hk.
  apply in_map_iff in Hk as (r & <- & Hr).
  assert (Hr' : In r (rows filtered_df)).
  { rewrite <- (firstn_skipn (List.length (rows filtered_df) - 15) (rows filtered_df)).
    apply in_or_app. right. exact Hr. }
  simpl in Hf. rewrite (loc_slice_monotonic _ _ _ Hmono) in Hf.
  injection Hf as <-. cbn [rows] in Hr'.
  apply (slice_keys_within (rows df)). apply in_map. exact Hr'.
Qed.

Lemma table_rows_within_selection_witness :
  (List.length (rows (styled (mkStyler
      (mkDF table_columns
            (map (table_row (mkDF table_columns (skipn 1 (rows sample_df))))
                 (skipn 1 (rows sample_df))))
      table_formats))) <= 15)%nat /\
  forall k,
    In k (index (styled (mkStyler
      (mkDF table_columns
            (map (table_row (mkDF table_columns (skipn 1 (rows sample_df))))
                 (skipn 1 (rows sample_df))))
      table_formats))) ->
    In k (index sample_df) /\
    Timestamp_of_date (_ymd2ord 2026 2 11) <= k <= Timestamp_of_date (_ymd2ord 2026 2 20).
Proof.
  apply (table_rows_within_selection
           sample_df (mkDF table_columns (skipn 1 (rows sample_df)))
           (_ymd2ord 2026 2 11) (_ymd2ord 2026 2 20));
    vm_compute; reflexivity.
Defined.

(** ** Label slicing on a descending index (line 64) *)

(** Name the row counts of the goal, one variable per count. *)
Ltac name_counts :=
  repeat match goal with
         | |- context [List.length (filter ?p ?l)] =>
             let n := fresh "n" in
             set (n := List.length (filter p l)) in *; clearbody n
         end.

Section Descending.

Lemma decreasing_cons (a : Timestamp) (t : list Timestamp) :
  is_monotonic_decreasing (a :: t) = true ->
  Forall (fun b => b <= a) t /\ is_monotonic_decreasing t = true.
Proof.
  revert a; induction t as [|b t IH]; intros a H.
  - split; [constructor | reflexivity].
  - change (((b <=? a) && is_monotonic_decreasing (b :: t))%bool = true) in H.
    apply andb_true_iff in H as [Hba Ht].
    apply Z.leb_le in Hba.
    destruct (IH b Ht) as [Hall _].
    split; [| exact Ht].
    constructor; [exact Hba |].
    eapply Forall_impl; [| exact Hall]. cbv beta. intros; lia.
Qed.

Lemma increasing_snoc (l : list Timestamp) (a : Timestamp) :
  is_monotonic_increasing l = true ->
  Forall (fun b => b <= a) l ->
  is_monotonic_increasing (l ++ [a]) = true.
Proof.
  induction l as [|b l IH]; intros Hmono Hall; [reflexivity |].
  inversion Hall as [|? ? Hb Hl]; subst.
  destruct l as [|c l].
  - simpl. rewrite (proj2 (Z.leb_le b a) Hb). reflexivity.
  - change (((b <=? c) && is_monotonic_increasing (c :: l))%bool = true) in Hmono.
    apply andb_true_iff in Hmono as [Hbc Hrest].
    change (((b <=? c) && is_monotonic_increasing ((c :: l) ++ [a]))%bool = true).
    rewrite Hbc. exact (IH Hrest Hl).
Qed.

Lemma decreasing_rev (l : list Timestamp) :
  is_monotonic_decreasing l = true -> is_monotonic_increasing (rev l) = true.
Proof.
  induction l as [|a l IH]; intros H; [reflexivity |].
  destruct (decreasing_cons _ _ H) as [Hall Hrest].
  simpl. apply increasing_snoc; [exact (IH Hrest) |].
  apply Forall_rev. exact Hall.
Qed.

(** On an ascending index the insertion points count the smaller keys. *)
Lemma searchsorted_counts (l : list Timestamp) (v : Timestamp) :
  is_monotonic_increasing l = true ->
  searchsorted l v Left = List.length (filter (fun a => (a <? v)%Z) l) /\
  searchsorted l v Right = List.length (filter (fun a => (a <=? v)%Z) l).
Proof.
  induction l as [|a t IH]; intros H; [split; reflexivity |].
  destruct (monotonic_cons _ _ H) as [Hall Ht].
  destruct (IH Ht) as [IHl IHr]. simpl. split.
  - destruct (a <? v) eqn:E; [simpl; rewrite IHl; reflexivity |].
    apply Z.ltb_ge in E. rewrite filter_nothing; [reflexivity |].
    eapply Forall_impl; [| exact Hall]. cbv beta. intros b Hb.
    apply Z.ltb_ge. lia.
  - destruct (a <=? v) eqn:E; [simpl; rewrite IHr; reflexivity |].
    apply Z.leb_gt in E. rewrite filter_nothing; [reflexivity |].
    eapply Forall_impl; [| exact Hall]. cbv beta. intros b Hb.
    apply Z.leb_gt. lia.
Qed.

Lemma count_rev (p : Timestamp -> bool) (l : list Timestamp) :
  List.length (filter p (rev l)) = List.length (filter p l).
Proof. rewrite filter_rev. apply length_rev. Qed.

Lemma count_split (l : list Timestamp) (v : Timestamp) :
  (List.length l - List.length (filter (fun a => (a <=? v)%Z) l)
   = List.length (filter (fun a => (v <? a)%Z) l))%nat /\
  (List.length l - List.length (filter (fun a => (a <? v)%Z) l)
   = List.length (filter (fun a => (v <? a)%Z) l)
     + List.length (filter (fun a => (a =? v)%Z) l))%nat.
Proof.
  unfold Timestamp in *.
  induction l as [|a l [IH1 IH2]]; [split; reflexivity |].
  pose proof (filter_length_le (fun a => (a <=? v)%Z) l).
  pose proof (filter_length_le (fun a => (a <? v)%Z) l).
  cbn [filter List.length].
  destruct (Z.compare_spec a v) as [Heq | Hlt | Hgt].
  - subst a. rewrite Z.leb_refl, Z.ltb_irrefl, Z.eqb_refl. cbn [List.length]. name_counts. lia.
  - rewrite (proj2 (Z.leb_le a v)) by lia.
    rewrite (proj2 (Z.ltb_lt a v)) by lia.
    rewrite (proj2 (Z.ltb_ge v a)) by lia.
    rewrite (proj2 (Z.eqb_neq a v)) by lia. cbn [List.length]. name_counts. lia.
  - rewrite (proj2 (Z.leb_gt a v)) by lia.
    rewrite (proj2 (Z.ltb_ge a v)) by lia.
    rewrite (proj2 (Z.ltb_lt v a)) by lia.
    rewrite (proj2 (Z.eqb_neq a v)) by lia. cbn [List.length]. name_counts. lia.
Qed.

(** On a descending index the occurrences of a label are the run after the
    keys greater than it. *)
Lemma positions_decreasing (l : list Timestamp) (v : Timestamp) (i : nat) :
  is_monotonic_decreasing l = true ->
  positions l v i
  = seq (i + List.length (filter (fun a => (v <? a)%Z) l))
        (List.length (filter (fun a => (a =? v)%Z) l)).
Proof.
  revert i; induction l as [|a t IH]; intros i H; [reflexivity |].
  destruct (decreasing_cons _ _ H) as [Hall Ht].
  simpl. destruct (Z.compare_spec a v) as [Heq | Hlt | Hgt].
  - subst a. rewrite Z.eqb_refl, Z.ltb_irrefl. simpl.
    rewrite (IH (S i) Ht).
    rewrite (filter_nothing (fun a => (v <? a)%Z) t).
    + simpl. rewrite !Nat.add_0_r. reflexivity.
    + eapply Forall_impl; [| exact Hall]. cbv beta. intros b Hb.
      apply Z.ltb_ge. lia.
  - rewrite (proj2 (Z.eqb_neq a v)) by lia.
    rewrite (proj2 (Z.ltb_ge v a)) by lia.
    rewrite positions_absent, (filter_nothing (fun a => (a =? v)%Z) t); [reflexivity | |].
    + eapply Forall_impl; [| exact Hall]. cbv beta. intros b Hb.
      apply Z.eqb_neq. lia.
    + eapply Forall_impl; [| exact Hall]. cbv beta. intros; lia.
  - rewrite (proj2 (Z.eqb_neq a v)) by lia.
    rewrite (proj2 (Z.ltb_lt v a)) by lia.
    rewrite (IH (S i) Ht). simpl. f_equal. lia.
Qed.

(** On a descending index a slice bound counts the keys above the label,
    and for the right bound the label's own occurrences too. *)
Lemma get_slice_bound_decreasing (idx : list Timestamp) (d : date) (side : Side) :
  is_monotonic_increasing idx = false ->
  is_monotonic_decreasing idx = true ->
  get_slice_bound idx d side
  = Ok (List.length (filter (fun a => (Timestamp_of_date d <? a)%Z) idx)
        + match side with
          | Left => 0
          | Right =>
              List.length (filter (fun a => (a =? Timestamp_of_date d)%Z) idx)
          end)%nat.
Proof.
  intros Hinc Hdec. unfold get_slice_bound. cbv zeta.
  generalize (Timestamp_of_date d). intros v.
  rewrite (positions_decreasing idx v O Hdec). simpl (0 + _)%nat.
  destruct (count_split idx v) as [Hle Hlt].
  destruct (searchsorted_counts (rev idx) v (decreasing_rev _ Hdec)) as [Sl Sr].
  rewrite count_rev in Sl, Sr.
  unfold Timestamp in *.
  set (gt := List.length (filter (fun a => (v <? a)%Z) idx)) in *.
  destruct (List.length (filter (fun a => (a =? v)%Z) idx)) as [|m] eqn:E.
  - cbn [seq]. unfold _searchsorted_monotonic. rewrite Hinc, Hdec.
    unfold Timestamp.
    destruct side; cbn [flip]; [rewrite Sr, Hle | rewrite Sl, Hlt];
      rewrite ?Nat.add_0_r; reflexivity.
  - pose proof (consecutive_seq gt (S m)) as Hrun.
    pose proof (last_seq gt m gt) as Hlast.
    cbn [seq] in Hrun |- *.
    remember (seq (S gt) m) as run.
    rewrite Hrun.
    destruct side; [f_equal; lia |].
    rewrite Hlast. f_equal. destruct m; lia.
Qed.

Lemma count_le_count {A} (p q : A -> bool) (l : list A) :
  (forall a, p a = true -> q a = true) ->
  (List.length (filter p l) <= List.length (filter q l))%nat.
Proof.
  intros Himp. induction l as [|a l IH]; [simpl; lia |].
  simpl. destruct (p a) eqn:Ep.
  - rewrite (Himp a Ep). simpl. lia.
  - destruct (q a); simpl; lia.
Qed.

Lemma count_gt_eq (l : list Timestamp) (v : Timestamp) :
  (List.length (filter (fun a => (v <? a)%Z) l)
   + List.length (filter (fun a => (a =? v)%Z) l)
   = List.length (filter (fun a => (v <=? a)%Z) l))%nat.
Proof.
  induction l as [|a l IH]; [reflexivity |].
  simpl. destruct (Z.compare_spec a v) as [Heq | Hlt | Hgt].
  - subst a. rewrite Z.ltb_irrefl, Z.eqb_refl, Z.leb_refl. simpl. lia.
  - rewrite (proj2 (Z.ltb_ge v a)) by lia.
    rewrite (proj2 (Z.eqb_neq a v)) by lia.
    rewrite (proj2 (Z.leb_gt v a)) by lia. exact IH.
  - rewrite (proj2 (Z.ltb_lt v a)) by lia.
    rewrite (proj2 (Z.eqb_neq a v)) by lia.
    rewrite (proj2 (Z.leb_le v a)) by lia. simpl. lia.
Qed.

End Descending.

(** A record set stored newest first shows nothing for a forward range: on a
    descending index label slicing runs from the later to the earlier key,
    so every selection with start before end, the picker's default among
    them, yields the empty slice. *)
Theorem descending_index_forward_range_empty (df : DataFrame)
        (start_date end_date : date) :
  is_monotonic_increasing (index df) = false ->
  is_monotonic_decreasing (index df) = true ->
  start_date < end_date ->
  filter_df df [start_date; end_date] = Ok (mkDF (columns df) []).
Proof.
  intros Hinc Hdec Hlt. simpl. unfold loc_slice.
  rewrite !(get_slice_bound_decreasing _ _ _ Hinc Hdec). cbn [rbind].
  rewrite Nat.add_0_r, count_gt_eq.
  do 2 f_equal. unfold slice.
  replace (_ - _)%nat with O; [reflexivity |].
  symmetry. apply Nat.sub_0_le. apply count_le_count.
  intros a Ha. apply Z.leb_le in Ha. apply Z.ltb_lt.
  assert (Timestamp_of_date start_date < Timestamp_of_date end_date).
  { apply Z.lt_nge. rewrite Timestamp_of_date_le. lia. }
  lia.
Qed.

Lemma descending_index_forward_range_empty_witness :
  filter_df descending_df [_ymd2ord 2026 1 1; _ymd2ord 2026 3 1]
  = Ok (mkDF (columns descending_df) []).
Proof.
  apply (descending_index_forward_range_empty descending_df);
    vm_compute; reflexivity.
Defined.
